(** * promoted-go-delivery-client-example: a model of [main.go]

    The program is a linear script: it reads its configuration from the
    environment, builds a delivery client, turns the in-memory catalog into
    the insertions of a delivery request, calls [Deliver] once and prints
    the response against the catalog.

    Conventions of the embedding.
    - A Go [string] is a [string] (a sequence of bytes), a Go [int] an
      integer in [Z] (the program does no arithmetic on it), a [float64] a
      binary64 [float].
    - A Go pointer to a struct is modelled by the struct it points to; a
      message field the program leaves [nil] somewhere is an [option].
    - Calls that leave the program (the environment, the standard streams,
      the delivery client library) are recorded, in order, as a trace of
      [Call]s; [os.Exit] and [panic] stop the run. *)

From Stdlib Require Import ZArith String Ascii List.
From Stdlib Require Import Floats.PrimFloat Floats.SpecFloat Floats.FloatOps.
From stdpp Require Import gmap strings list fin_maps.

Set Warnings "-register-all".

Local Open Scope string_scope.
Local Open Scope Z_scope.

(** ** Go values *)

(** The line feed that Go writes ["\n"]. *)
Definition LF : string := String (ascii_of_nat 10) EmptyString.

(** [errors.New(msg)]: an error value is known by its message. *)
Record error := errors_New { Error : string }.

#[global] Instance error_eq_dec : EqDecision error.
Proof. solve_decision. Defined.

(** Go's conversion [float64(v)] of an integer: the nearest binary64,
    ties to even. *)
Definition float64_of_int (v : Z) : float :=
  SF2Prim (binary_normalize prec emax v 0 false).

(** ** package strconv *)

(** [strconv.ParseBool]: the twelve accepted spellings; anything else is a
    syntax error ([None]). *)
Definition strconv_ParseBool (str : string) : option bool :=
  if bool_decide (str ∈ ["1"; "t"; "T"; "TRUE"; "true"; "True"]) then Some true
  else if bool_decide (str ∈ ["0"; "f"; "F"; "FALSE"; "false"; "False"]) then Some false
  else None.

(** ** package unicode/utf8 *)

Definition utf8_cont (b : N) : bool := ((0x80 <=? b) && (b <=? 0xBF))%N.

(** Well-formed UTF-8 over the bytes of a string: no overlong forms, no
    surrogates, nothing above U+10FFFF. *)
Fixpoint utf8_valid_bytes (l : list N) : bool :=
  match l with
  | [] => true
  | b0 :: l1 =>
    if (b0 <? 0x80)%N then utf8_valid_bytes l1 else
    match l1 with
    | [] => false
    | b1 :: l2 =>
      if ((0xC2 <=? b0) && (b0 <=? 0xDF))%N then utf8_cont b1 && utf8_valid_bytes l2 else
      match l2 with
      | [] => false
      | b2 :: l3 =>
        if ((0xE0 <=? b0) && (b0 <=? 0xEF))%N then
          (if (b0 =? 0xE0)%N then ((0xA0 <=? b1) && (b1 <=? 0xBF))%N
           else if (b0 =? 0xED)%N then ((0x80 <=? b1) && (b1 <=? 0x9F))%N
           else utf8_cont b1)
          && utf8_cont b2 && utf8_valid_bytes l3
        else
        match l3 with
        | [] => false
        | b3 :: l4 =>
          if ((0xF0 <=? b0) && (b0 <=? 0xF4))%N then
            (if (b0 =? 0xF0)%N then ((0x90 <=? b1) && (b1 <=? 0xBF))%N
             else if (b0 =? 0xF4)%N then ((0x80 <=? b1) && (b1 <=? 0x8F))%N
             else utf8_cont b1)
            && utf8_cont b2 && utf8_cont b3 && utf8_valid_bytes l4
          else false
        end
      end
    end
  end.

Definition utf8_ValidString (s : string) : bool :=
  utf8_valid_bytes (map N_of_ascii (list_ascii_of_string s)).

(** ** package structpb *)

(** The dynamic Go values ([any]) that [structpb.NewValue] is given: the
    kinds it converts that a map literal of this program can hold, and
    [any_other] for a value of a type it rejects. *)
Inductive any :=
| any_nil
| any_bool (v : bool)
| any_int (v : Z)
| any_float64 (v : float)
| any_string (v : string)
| any_map (m : gmap string any)
| any_other.

(** [structpb.Value]; a [structpb.Struct] is its map of fields. *)
Inductive Value :=
| NullValue
| NumberValue (v : float)
| StringValue (v : string)
| BoolValue (v : bool)
| StructValue (Fields : gmap string Value).

Abbreviation Struct := (gmap string Value).

(** [structpb.NewValue], with [structpb.NewStruct] for a map: a number for
    an int or a float64, a string when it is valid UTF-8, a struct when
    every key is valid UTF-8 and every value converts. An error is known by
    its kind; the library's message also quotes the offending value. *)
Fixpoint structpb_NewValue (v : any) : error + Value :=
  match v with
  | any_nil => inr NullValue
  | any_bool v => inr (BoolValue v)
  | any_int v => inr (NumberValue (float64_of_int v))
  | any_float64 v => inr (NumberValue v)
  | any_string v =>
    if utf8_ValidString v then inr (StringValue v)
    else inl (errors_New "invalid UTF-8 in string")
  | any_map m =>
    match
      map_fold (λ k v (x : error + Struct),
        match x with
        | inl err => inl err
        | inr Fields =>
          if utf8_ValidString k then
            match structpb_NewValue v with
            | inl err => inl err
            | inr v2 => inr (<[k := v2]> Fields)
            end
          else inl (errors_New "invalid UTF-8 in string")
        end) (inr ∅) m
    with
    | inl err => inl err
    | inr Fields => inr (StructValue Fields)
    end
  | any_other => inl (errors_New "invalid type")
  end.

(** [GetStructValue] of a [Value]: the struct of a struct value, [nil]
    otherwise. *)
Definition GetStructValue (x : Value) : option Struct :=
  match x with
  | StructValue Fields => Some Fields
  | _ => None
  end.

(** ** The schema messages the program builds and reads
    (packages common, delivery and the client library) *)

Record Properties_Struct := { Struct_ : option Struct }.

(** [common.Properties]: its [StructField] holds a [Properties_Struct]. *)
Record Properties := { StructField : Properties_Struct }.

(** [delivery.Insertion]: the program sets [ContentId] and, in [main.go],
    [Properties]; every other field keeps its zero value. *)
Record Insertion := {
  ContentId : string;
  Insertion_Properties : option Properties
}.

Record UserInfo := { AnonUserId : string; UserId : string }.

(** [delivery.UseCase]: the zero value and the one the request uses. *)
Inductive UseCase := UseCase_UNKNOWN_USE_CASE | UseCase_SEARCH.

Inductive Paging_Starting := Paging_Offset (Offset : Z).

Record Paging := { Starting : Paging_Starting; Size : Z }.

Record Request := {
  Request_UserInfo : UserInfo;
  Request_UseCase : UseCase;
  SearchQuery : string;
  Request_Paging : Paging;
  DisablePersonalization : bool;
  Request_Properties : Properties;
  Request_Insertion : list Insertion
}.

(** [client.DeliveryRequest]. *)
Record DeliveryRequest := { Request_ : Request; DeliveryRequest_OnlyLog : bool }.

(** [delivery.Response]: the program reads its insertions. *)
Record Response := { Response_Insertion : list Insertion }.

(** [client.DeliveryResponse]; the execution server is a schema enum, an
    int32. *)
Record DeliveryResponse := {
  Response_ : Response;
  ClientRequestID : string;
  ExecutionServer : Z
}.

(** The settings a [PromotedDeliveryClientBuilder] has been given, in the
    order of the calls. *)
Inductive APIFactory := DefaultAPIFactory.

Inductive BuilderCall :=
| WithDeliveryEndpoint (v : string)
| WithDeliveryAPIKey (v : string)
| WithDeliveryTimeoutMillis (v : Z)
| WithMetricsEndpoint (v : string)
| WithMetricsAPIKey (v : string)
| WithMetricsTimeoutMillis (v : Z)
| WithAcceptsGzip (v : bool)
| WithAPIFactory (v : APIFactory).

Abbreviation PromotedDeliveryClientBuilder := (list BuilderCall).

Definition NewPromotedDeliveryClientBuilder : PromotedDeliveryClientBuilder := [].

(** ** The program's own types *)

(** Product is an example Proto struct. *)
Record Product := { ID : string; Name : string; Price : Z }.

Record Config := {
  MetricsApiEndpointUrl : string;
  MetricsApiKey : string;
  DeliveryApiEndpointUrl : string;
  DeliveryApiKey : string;
  OnlyLog : bool;
  ShadowTrafficDeliveryRate : float;
  BlockingShadowTraffic : bool
}.

(** ** Calls, traces and the monad of a run *)

(** An operand of a [fmt] call. *)
Inductive Operand :=
| a_string (v : string)
| a_error (v : error)
| a_Product (v : Product)
| a_ExecutionServer (v : Z).

(** The calls that leave the program. *)
Inductive Call :=
| os_Getenv_call (key : string)
| os_LookupEnv_call (key : string)
| Fprintf_Stderr_call (format : string) (a : list Operand)
| Println_call (a : list Operand)
| Printf_call (format : string) (a : list Operand)
| Build_call (b : PromotedDeliveryClientBuilder)
| Deliver_call (req : DeliveryRequest).

(** How a run stops early. *)
Inductive Halt := os_Exit_halt (code : Z) | panic_halt (err : error).

(** A computation: the calls it made, and how it ended. *)
Definition M (A : Type) : Type := list Call * (Halt + A).

#[global] Instance M_ret : MRet M := λ A a, ([], inr a).

#[global] Instance M_bind : MBind M := λ A B k m,
  match m with
  | (t, inl h) => (t, inl h)
  | (t, inr a) => let '(t', r) := k a in ((t ++ t')%list, r)
  end.

Definition call (c : Call) : M unit := ([c], inr ()).

Definition os_Exit {A} (code : Z) : M A := ([], inl (os_Exit_halt code)).

Definition panic {A} (err : error) : M A := ([], inl (panic_halt err)).

Definition fmt_Fprintf_Stderr (format : string) (a : list Operand) : M unit :=
  call (Fprintf_Stderr_call format a).

Definition fmt_Println (a : list Operand) : M unit := call (Println_call a).

Definition fmt_Printf (format : string) (a : list Operand) : M unit :=
  call (Printf_call format a).

(** [for _, x := range l { body }]. *)
Fixpoint for_range {A} (l : list A) (body : A → M unit) : M unit :=
  match l with
  | [] => mret ()
  | x :: l' => body x ;; for_range l' body
  end.

(** A [range] loop that updates a variable. *)
Fixpoint for_range_var {A B} (l : list A) (body : B → A → M B) (b : B) : M B :=
  match l with
  | [] => mret b
  | x :: l' => b' ← body b x; for_range_var l' body b'
  end.

Definition trace {A} (m : M A) : list Call := fst m.
Definition result {A} (m : M A) : Halt + A := snd m.

(** ** main.go *)

Section Program.

(** What a run meets outside the program: the process environment,
    [strconv.ParseFloat] (at bit size 64), and the client library's
    [Build] and [Deliver]. *)
Variable env : gmap string string.
Variable strconv_ParseFloat : string → option float.
Variable PromotedDeliveryClient : Type.
Variable Build : PromotedDeliveryClientBuilder → error + PromotedDeliveryClient.
Variable Deliver : PromotedDeliveryClient → DeliveryRequest → error + DeliveryResponse.

(** [os.Getenv]: the value, empty when the variable is not set. *)
Definition os_Getenv (key : string) : M string :=
  call (os_Getenv_call key) ;; mret (default "" (env !! key)).

(** [os.LookupEnv]: the value when the variable is set. *)
Definition os_LookupEnv (key : string) : M (option string) :=
  call (os_LookupEnv_call key) ;; mret (env !! key).

Definition parseBoolEnv (key : string) (defaultValue : bool) : M bool :=
  r ← os_LookupEnv key;
  match r with
  | None => mret defaultValue
  | Some val =>
    match strconv_ParseBool val with
    | None => mret defaultValue
    | Some parsed => mret parsed
    end
  end.

Definition parseFloatEnv (key : string) (defaultValue : float) : M float :=
  r ← os_LookupEnv key;
  match r with
  | None => mret defaultValue
  | Some val =>
    match strconv_ParseFloat val with
    | None => mret defaultValue
    | Some parsed => mret parsed
    end
  end.

Definition validateConfig (config : Config) : option error :=
  if decide (MetricsApiEndpointUrl config = "") then
    Some (errors_New "metricsApiEndpointUrl needs to be specified")
  else if decide (MetricsApiKey config = "") then
    Some (errors_New "metricsApiKey needs to be specified")
  else if decide (DeliveryApiEndpointUrl config = "") then
    Some (errors_New "deliveryApiEndpointUrl needs to be specified")
  else if decide (DeliveryApiKey config = "") then
    Some (errors_New "deliveryApiKey needs to be specified")
  else None.

Definition newTestRequest (insertions : list Insertion) (onlyLog : bool)
  : error + DeliveryRequest :=
  match structpb_NewValue (any_map {[
          "category" := any_string "topic";
          "priceMin" := any_float64 10%float ]}) with
  | inl err => inl err
  | inr requestPropsValue =>
    inr {|
      Request_ := {|
        Request_UserInfo := {|
          AnonUserId := "testAnonUserId1";
          UserId := "testUserId1" |};
        Request_UseCase := UseCase_SEARCH;
        SearchQuery := "query";
        Request_Paging := {| Starting := Paging_Offset 0; Size := 3 |};
        DisablePersonalization := false;
        Request_Properties := {|
          StructField := {| Struct_ := GetStructValue requestPropsValue |} |};
        Request_Insertion := insertions |};
      DeliveryRequest_OnlyLog := onlyLog |}
  end.

Definition newTestRequestInsertions (products : list Product) : M (list Insertion) :=
  for_range_var products (λ insertions product,
    insertionPropsValue ←
      match structpb_NewValue (any_map {[ "price" := any_int (Price product) ]}) with
      | inl err =>
        fmt_Println [a_string "insertion structpb.NewValue failed"] ;; panic err
      | inr v => mret v
      end;
    mret (insertions ++ [ {|
      ContentId := ID product;
      Insertion_Properties := Some {|
        StructField := {| Struct_ := GetStructValue insertionPropsValue |} |} |} ])%list)
    [].

Definition NewPromotedDeliveryClient (config : Config)
  : M (error + PromotedDeliveryClient) :=
  let b := (NewPromotedDeliveryClientBuilder ++ [
    WithDeliveryEndpoint (DeliveryApiEndpointUrl config);
    WithDeliveryAPIKey (DeliveryApiKey config);
    WithDeliveryTimeoutMillis 1000;
    WithMetricsEndpoint (MetricsApiEndpointUrl config);
    WithMetricsAPIKey (MetricsApiKey config);
    WithMetricsTimeoutMillis 1000;
    WithAcceptsGzip true;
    WithAPIFactory DefaultAPIFactory ])%list in
  call (Build_call b) ;; mret (Build b).

Definition client_Deliver (client : PromotedDeliveryClient) (req : DeliveryRequest)
  : M (error + DeliveryResponse) :=
  call (Deliver_call req) ;; mret (Deliver client req).

Definition getProducts : list Product := [
  {| ID := "1"; Name := "Product 1"; Price := 100 |};
  {| ID := "2"; Name := "Product 2"; Price := 200 |} ].

(** The [Config] literal that opens [main]: its seven fields, in order. *)
Definition main_config : M Config :=
  v1 ← os_Getenv "METRICS_API_ENDPOINT_URL";
  v2 ← os_Getenv "METRICS_API_KEY";
  v3 ← os_Getenv "DELIVERY_API_ENDPOINT_URL";
  v4 ← os_Getenv "DELIVERY_API_KEY";
  v5 ← parseBoolEnv "ONLY_LOG" false;
  v6 ← parseFloatEnv "SHADOW_TRAFFIC_DELIVERY_RATE" 0%float;
  v7 ← parseBoolEnv "BLOCKING_SHADOW_TRAFFIC" false;
  mret {|
    MetricsApiEndpointUrl := v1;
    MetricsApiKey := v2;
    DeliveryApiEndpointUrl := v3;
    DeliveryApiKey := v4;
    OnlyLog := v5;
    ShadowTrafficDeliveryRate := v6;
    BlockingShadowTraffic := v7 |}.

(** The map of products that [main] fills from the catalog. *)
Definition main_productsMap (products : list Product) : gmap string Product :=
  foldl (λ productsMap product, <[ID product := product]> productsMap) ∅ products.

Definition main : M unit :=
  (* Parse environment variables *)
  config ← main_config;
  (* Validate arguments *)
  match validateConfig config with
  | Some err => fmt_Fprintf_Stderr ("Error: %v" ++ LF) [a_error err] ;; os_Exit 1
  | None => mret ()
  end ;;
  (* Initialize the client *)
  r ← NewPromotedDeliveryClient config;
  client ← match r with
           | inl err =>
             fmt_Println [a_string "Error initializing PromotedDeliveryClient"] ;;
             panic err
           | inr client => mret client
           end;
  (* Retrieve products *)
  let products := getProducts in
  (* Create a map of products to reorder after Promoted ranking. *)
  let productsMap := main_productsMap products in
  (* Build request *)
  requestInsertions ← newTestRequestInsertions products;
  req ← match newTestRequest requestInsertions (OnlyLog config) with
        | inl err => fmt_Println [a_string "newTestRequest failed"] ;; panic err
        | inr req => mret req
        end;
  (* Call the Promoted delivery API. *)
  r ← client_Deliver client req;
  response ← match r with
             | inl err => fmt_Println [a_string "Delivery called failed"] ;; panic err
             | inr response => mret response
             end;
  (* Apply Promoted's re-ranking to the products. *)
  fmt_Printf ("Execution server: %s" ++ LF) [a_ExecutionServer (ExecutionServer response)] ;;
  fmt_Printf ("Client request ID: %s" ++ LF) [a_string (ClientRequestID response)] ;;
  fmt_Printf ("Response" ++ LF) [] ;;
  for_range (Response_Insertion (Response_ response)) (λ insertion,
    match productsMap !! ContentId insertion with
    | Some rerankedProducts => fmt_Printf ("%v" ++ LF) [a_Product rerankedProducts]
    | None =>
      (* Can happen if the Delivery API is configured to return cached items. *)
      fmt_Printf ("%v" ++ LF) [a_string (ContentId insertion)]
    end).

End Program.

(** ** Sample runs *)

(** An environment in the shape of the README's [.env] file. *)
Definition sample_env : gmap string string := {[
  "METRICS_API_ENDPOINT_URL" := "https://metrics.example/log";
  "METRICS_API_KEY" := "mkey";
  "DELIVERY_API_ENDPOINT_URL" := "https://delivery.example/deliver";
  "DELIVERY_API_KEY" := "dkey" ]}.

(** A float parser that knows one literal; enough for the sample runs. *)
Definition sample_ParseFloat (s : string) : option float :=
  if decide (s = "0.5") then Some 0.5%float else None.

(** A client library whose [Build] succeeds and whose [Deliver] answers
    with the second product, an item that is not in the catalog, and the
    first product. *)
Definition sample_Build (b : PromotedDeliveryClientBuilder) : error + unit := inr ().

Definition sample_response : DeliveryResponse := {|
  Response_ := {| Response_Insertion := [
    {| ContentId := "2"; Insertion_Properties := None |};
    {| ContentId := "9"; Insertion_Properties := None |};
    {| ContentId := "1"; Insertion_Properties := None |} ] |};
  ClientRequestID := "req-1";
  ExecutionServer := 1 |}.

Definition sample_Deliver (c : unit) (req : DeliveryRequest) : error + DeliveryResponse :=
  inr sample_response.

Definition sample_main : M unit :=
  main sample_env sample_ParseFloat unit sample_Build sample_Deliver.

(** A [Deliver] that answers with the insertions of the request, in reverse
    order. *)
Definition echo_Deliver (c : unit) (req : DeliveryRequest) : error + DeliveryResponse :=
  inr {|
    Response_ := {| Response_Insertion := reverse (Request_Insertion (Request_ req)) |};
    ClientRequestID := "req-2";
    ExecutionServer := 1 |}.

(** The response of [echo_Deliver] to the request of [main]: the catalog's
    two insertions, second one first. *)
Definition echo_response : DeliveryResponse := {|
  Response_ := {| Response_Insertion := [
    {| ContentId := "2";
       Insertion_Properties := Some {| StructField := {| Struct_ :=
         Some {[ "price" := NumberValue 200%float ]} |} |} |};
    {| ContentId := "1";
       Insertion_Properties := Some {| StructField := {| Struct_ :=
         Some {[ "price" := NumberValue 100%float ]} |} |} |} ] |};
  ClientRequestID := "req-2";
  ExecutionServer := 1 |}.

(** The sample environment with the shadow-traffic variables and an
    unrelated variable set as well. *)
Definition sample_env_more : gmap string string :=
  <["SHADOW_TRAFFIC_DELIVERY_RATE" := "0.5"]>
    (<["BLOCKING_SHADOW_TRAFFIC" := "true"]> (<["HOME" := "/root"]> sample_env)).

(** The sample environment with log-only delivery switched on. *)
Definition sample_env_only_log : gmap string string :=
  <["ONLY_LOG" := "true"]> sample_env.

(** The names of the four variables that [validateConfig] requires. *)
Definition required_variables : list string := [
  "METRICS_API_ENDPOINT_URL"; "METRICS_API_KEY";
  "DELIVERY_API_ENDPOINT_URL"; "DELIVERY_API_KEY" ].

(** ** Part 000: the variant of [main] that builds its insertions inline *)

Module Part000.

(** The loop of [main] over the products: each one appends an insertion
    that carries the content id alone, and enters the products map. *)
Definition main_insertions (products : list Product)
  : list Insertion * gmap string Product :=
  foldl (λ '(insertions, productsMap) product,
           ((insertions ++ [ {| ContentId := ID product;
                                Insertion_Properties := None |} ])%list,
            <[ID product := product]> productsMap))
        ([], ∅) products.

(** The calls of part 000: [fmt.Print] and a [fmt.Printf] of a [Product]
    value, which [main.go] does not make, and the calls of [main.go]. *)
Inductive Call000 :=
| Print_call (a : list Operand)
| Printf_Product_call (format : string) (v : Product)
| main_go_call (c : Call).

Definition M000 (A : Type) : Type := list Call000 * (Halt + A).

#[global] Instance M000_ret : MRet M000 := λ A a, ([], inr a).

#[global] Instance M000_bind : MBind M000 := λ A B k m,
  match m with
  | (t, inl h) => (t, inl h)
  | (t, inr a) => let '(t', r) := k a in ((t ++ t')%list, r)
  end.

(** A computation of [main.go], run in part 000. *)
Definition lift {A} (m : M A) : M000 A := (main_go_call <$> trace m, result m).

Definition call000 (c : Call000) : M000 unit := ([c], inr ()).

Definition fmt_Print (a : list Operand) : M000 unit := call000 (Print_call a).

Fixpoint for_range000 {A} (l : list A) (body : A → M000 unit) : M000 unit :=
  match l with
  | [] => mret ()
  | x :: l' => body x ;; for_range000 l' body
  end.

Section Program000.

Variable env : gmap string string.
Variable strconv_ParseFloat : string → option float.
Variable PromotedDeliveryClient : Type.
Variable Build : PromotedDeliveryClientBuilder → error + PromotedDeliveryClient.
Variable Deliver : PromotedDeliveryClient → DeliveryRequest → error + DeliveryResponse.

(** [main] of part 000. Its [Config] literal, [validateConfig],
    [NewPromotedDeliveryClient], [newTestRequest] and [getProducts] are
    those of [main.go]; its products are values, not pointers. *)
Definition main : M000 unit :=
  (* Parse environment variables *)
  config ← lift (main_config env strconv_ParseFloat);
  fmt_Print [a_string ("Promoted Delivery Client" ++ LF)] ;;
  fmt_Print [a_string (MetricsApiEndpointUrl config)] ;;
  fmt_Print [a_string LF] ;;
  (* Validate arguments *)
  match validateConfig config with
  | Some err =>
    lift (fmt_Fprintf_Stderr ("Error: %v" ++ LF) [a_error err]) ;; lift (os_Exit 1)
  | None => mret ()
  end ;;
  (* Initialize the client *)
  r ← lift (NewPromotedDeliveryClient PromotedDeliveryClient Build config);
  client ← match r with
           | inl err =>
             lift (fmt_Println [a_string "Error initializing PromotedDeliveryClient"]) ;;
             lift (panic err)
           | inr client => mret client
           end;
  (* Retrieve products *)
  let products := getProducts in
  (* Create insertions for each product, and the map of products. *)
  let '(insertions, productsMap) := main_insertions products in
  (* Build request *)
  req ← match newTestRequest insertions (OnlyLog config) with
        | inl err => lift (fmt_Println [a_string "newTestRequest failed"]) ;; lift (panic err)
        | inr req => mret req
        end;
  (* Call the Promoted delivery API. *)
  r ← lift (client_Deliver PromotedDeliveryClient Deliver client req);
  response ← match r with
             | inl err =>
               lift (fmt_Println [a_string "Delivery called failed"]) ;; lift (panic err)
             | inr response => mret response
             end;
  (* Apply Promoted's re-ranking to the products. *)
  lift (fmt_Printf ("Execution server: %s" ++ LF)
          [a_ExecutionServer (ExecutionServer response)]) ;;
  lift (fmt_Printf ("Client request ID: %s" ++ LF) [a_string (ClientRequestID response)]) ;;
  lift (fmt_Printf ("Response" ++ LF) []) ;;
  for_range000 (Response_Insertion (Response_ response)) (λ insertion,
    match productsMap !! ContentId insertion with
    | Some rerankedProducts =>
      call000 (Printf_Product_call ("%v" ++ LF) rerankedProducts)
    | None =>
      (* Can happen if the Delivery API is configured to return cached items. *)
      lift (fmt_Printf ("%v" ++ LF) [a_string (ContentId insertion)])
    end).

End Program000.

(** The calls of a part 000 trace that are not [fmt.Print] calls. *)
Definition without_Print (t : list Call000) : list Call000 :=
  List.filter (λ c, match c with Print_call _ => false | _ => true end) t.

(** An insertion without its properties, and a request whose insertions
    are without theirs. *)
Definition bare_insertion (insertion : Insertion) : Insertion :=
  {| ContentId := ContentId insertion; Insertion_Properties := None |}.

Definition bare_request (req : DeliveryRequest) : DeliveryRequest := {|
  Request_ := {|
    Request_UserInfo := Request_UserInfo (Request_ req);
    Request_UseCase := Request_UseCase (Request_ req);
    SearchQuery := SearchQuery (Request_ req);
    Request_Paging := Request_Paging (Request_ req);
    DisablePersonalization := DisablePersonalization (Request_ req);
    Request_Properties := Request_Properties (Request_ req);
    Request_Insertion := bare_insertion <$> Request_Insertion (Request_ req) |};
  DeliveryRequest_OnlyLog := DeliveryRequest_OnlyLog req |}.

(** The call of part 000 that prints one insertion of the response. *)
Definition print_insertion000 (productsMap : gmap string Product) (insertion : Insertion)
  : Call000 :=
  match productsMap !! ContentId insertion with
  | Some rerankedProducts => Printf_Product_call ("%v" ++ LF) rerankedProducts
  | None => main_go_call (Printf_call ("%v" ++ LF) [a_string (ContentId insertion)])
  end.

(** The three prints that part 000 makes once the configuration is read. *)
Definition print_banner (config : Config) : list Call000 := [
  Print_call [a_string ("Promoted Delivery Client" ++ LF)];
  Print_call [a_string (MetricsApiEndpointUrl config)];
  Print_call [a_string LF] ].

(** A call of [main.go] as part 000 makes it: the request is sent with bare
    insertions, and a product is printed as a value. *)
Definition as_part_000 (c : Call) : Call000 :=
  match c with
  | Deliver_call req => main_go_call (Deliver_call (bare_request req))
  | Printf_call format [a_Product v] => Printf_Product_call format v
  | _ => main_go_call c
  end.

End Part000.

(** ** The vocabulary of the statements *)

(** The insertion that [newTestRequestInsertions] appends for a product. *)
Definition product_insertion (product : Product) : Insertion := {|
  ContentId := ID product;
  Insertion_Properties := Some {|
    StructField := {|
      Struct_ := Some {[ "price" := NumberValue (float64_of_int (Price product)) ]}
    |} |} |}.

(** The seven reads of the [Config] literal. *)
Definition config_reads : list Call := [
  os_Getenv_call "METRICS_API_ENDPOINT_URL";
  os_Getenv_call "METRICS_API_KEY";
  os_Getenv_call "DELIVERY_API_ENDPOINT_URL";
  os_Getenv_call "DELIVERY_API_KEY";
  os_LookupEnv_call "ONLY_LOG";
  os_LookupEnv_call "SHADOW_TRAFFIC_DELIVERY_RATE";
  os_LookupEnv_call "BLOCKING_SHADOW_TRAFFIC" ].

(** The [Config] that an environment gives. *)
Definition env_config (env : gmap string string)
    (strconv_ParseFloat : string → option float) : Config := {|
  MetricsApiEndpointUrl := default "" (env !! "METRICS_API_ENDPOINT_URL");
  MetricsApiKey := default "" (env !! "METRICS_API_KEY");
  DeliveryApiEndpointUrl := default "" (env !! "DELIVERY_API_ENDPOINT_URL");
  DeliveryApiKey := default "" (env !! "DELIVERY_API_KEY");
  OnlyLog := default false (env !! "ONLY_LOG" ≫= strconv_ParseBool);
  ShadowTrafficDeliveryRate :=
    default 0%float (env !! "SHADOW_TRAFFIC_DELIVERY_RATE" ≫= strconv_ParseFloat);
  BlockingShadowTraffic :=
    default false (env !! "BLOCKING_SHADOW_TRAFFIC" ≫= strconv_ParseBool) |}.

(** The builder calls that [NewPromotedDeliveryClient] makes for a
    configuration. *)
Definition client_builder (config : Config) : PromotedDeliveryClientBuilder := [
  WithDeliveryEndpoint (DeliveryApiEndpointUrl config);
  WithDeliveryAPIKey (DeliveryApiKey config);
  WithDeliveryTimeoutMillis 1000;
  WithMetricsEndpoint (MetricsApiEndpointUrl config);
  WithMetricsAPIKey (MetricsApiKey config);
  WithMetricsTimeoutMillis 1000;
  WithAcceptsGzip true;
  WithAPIFactory DefaultAPIFactory ].

(** The call that prints one insertion of the response. *)
Definition print_insertion (productsMap : gmap string Product) (insertion : Insertion) : Call :=
  Printf_call ("%v" ++ LF) [
    match productsMap !! ContentId insertion with
    | Some rerankedProducts => a_Product rerankedProducts
    | None => a_string (ContentId insertion)
    end ].

(** The three calls that precede the insertions of a response. *)
Definition print_header (response : DeliveryResponse) : list Call := [
  Printf_call ("Execution server: %s" ++ LF) [a_ExecutionServer (ExecutionServer response)];
  Printf_call ("Client request ID: %s" ++ LF) [a_string (ClientRequestID response)];
  Printf_call ("Response" ++ LF) [] ].

(** The reads that [parseBoolEnv] and [parseFloatEnv] make, through
    [os.LookupEnv]. *)
Definition is_coerced_read (c : Call) : bool :=
  match c with
  | os_LookupEnv_call _ => true
  | _ => false
  end.

(** The run of [main] obtains [response]: the configuration it read is
    valid, the client was built, and [Deliver] answered the request with
    [response]. *)
Definition main_delivers (env : gmap string string)
    (strconv_ParseFloat : string → option float) (PromotedDeliveryClient : Type)
    (Build : PromotedDeliveryClientBuilder → error + PromotedDeliveryClient)
    (Deliver : PromotedDeliveryClient → DeliveryRequest → error + DeliveryResponse)
    (response : DeliveryResponse) : Prop :=
  ∃ config client requestInsertions req,
    result (main_config env strconv_ParseFloat) = inr config
    ∧ validateConfig config = None
    ∧ result (NewPromotedDeliveryClient PromotedDeliveryClient Build config) = inr (inr client)
    ∧ result (newTestRequestInsertions getProducts) = inr requestInsertions
    ∧ newTestRequest requestInsertions (OnlyLog config) = inr req
    ∧ result (client_Deliver PromotedDeliveryClient Deliver client req) = inr (inr response).

(** The content id that a call prints as a line of the response: the
    operand of a ["%v\n"] print, by its [ID] when it is a product. *)
Definition printed_ContentId (c : Call) : option string :=
  match c with
  | Printf_call format [a_Product product] =>
    if decide (format = "%v" ++ LF) then Some (ID product) else None
  | Printf_call format [a_string v] =>
    if decide (format = "%v" ++ LF) then Some v else None
  | _ => None
  end.

(** A read of the environment. *)
Definition is_env_read (c : Call) : bool :=
  match c with
  | os_Getenv_call _ | os_LookupEnv_call _ => true
  | _ => false
  end.

(** * Properties *)

(** Walks a lookup hypothesis down the known front of a trace. *)
Ltac walk_trace H :=
  repeat match type of H with
  | (?x :: ?l) !! ?n = ?r =>
    let n' := fresh "i" in
    destruct n as [|n'];
    [change (Some x = r) in H; try discriminate H; try (injection H as H)
    |change (l !! n' = r) in H]
  | [] !! _ = Some _ => discriminate H
  | (_ <$> _) !! _ = Some _ =>
    rewrite list_lookup_fmap in H;
    match type of H with
    | _ <$> ?o = Some _ =>
      destruct o; cbn [fmap option_fmap option_map] in H; unfold print_insertion in H;
      [try discriminate H; try (injection H as H) | discriminate H]
    end
  end.

(** ** Running a computation *)

Lemma mbind_inr {A B} (t : list Call) (a : A) (k : A → M B) :
  ((t, inr a) ≫= k) = ((t ++ trace (k a))%list, result (k a)).
Proof. unfold mbind, M_bind, trace, result. by destruct (k a). Qed.

Lemma mbind_inl {A B} (t : list Call) (h : Halt) (k : A → M B) :
  ((t, inl h) ≫= k) = (t, inl h).
Proof. reflexivity. Qed.

Lemma mbind_mret {A B} (a : A) (k : A → M B) : (mret a ≫= k) = k a.
Proof. unfold mret, M_ret. rewrite mbind_inr. by destruct (k a). Qed.

Lemma mbind_nil {A B} (a : A) (k : A → M B) : (([], inr a) ≫= k) = k a.
Proof. apply mbind_mret. Qed.

Lemma mbind_call {B} (c : Call) (k : unit → M B) :
  (call c ≫= k) = (c :: trace (k ()), result (k ())).
Proof. unfold call. by rewrite mbind_inr. Qed.

Lemma M_eta {A} (m : M A) : m = (trace m, result m).
Proof. by destruct m. Qed.

(** The print loop makes one call per element, in order, and completes. *)
Lemma for_range_calls {A} (l : list A) (f : A → Call) :
  for_range l (λ x, call (f x)) = (f <$> l, inr ()).
Proof.
  induction l as [|x l IH]; [done|].
  cbn [for_range]. by rewrite mbind_call, IH.
Qed.

Lemma for_range_ext {A} (l : list A) (f g : A → M unit) :
  (∀ x, f x = g x) → for_range l f = for_range l g.
Proof.
  intros Hfg. induction l as [|x l IH]; [done|].
  cbn [for_range]. by rewrite Hfg, IH.
Qed.

(** ** The library models on concrete inputs *)

Example ParseBool_spellings :
  strconv_ParseBool "true" = Some true
  ∧ strconv_ParseBool "F" = Some false
  ∧ strconv_ParseBool "1" = Some true
  ∧ strconv_ParseBool "yes" = None
  ∧ strconv_ParseBool "" = None.
Proof. by vm_compute. Qed.

Example ValidString_samples :
  utf8_ValidString "priceMin" = true
  ∧ utf8_ValidString (String (ascii_of_nat 195) (String (ascii_of_nat 169) "")) = true
  ∧ utf8_ValidString (String (ascii_of_nat 195) "") = false
  ∧ utf8_ValidString (String (ascii_of_nat 255) "a") = false.
Proof. by vm_compute. Qed.

Example catalog_prices_as_numbers :
  float64_of_int 100 = 100%float ∧ float64_of_int 200 = 200%float.
Proof. by vm_compute. Qed.

Example NewValue_rejects :
  structpb_NewValue (any_map {[ "price" := any_other ]})
  = inl (errors_New "invalid type").
Proof. by vm_compute. Qed.

(** ** structpb on the two maps the program converts *)

Example NewValue_price :
  structpb_NewValue (any_map {[ "price" := any_int 100 ]})
  = inr (StructValue {[ "price" := NumberValue 100%float ]}).
Proof. vm_compute. reflexivity. Qed.

Lemma NewValue_singleton_int (k : string) (z : Z) :
  utf8_ValidString k = true →
  structpb_NewValue (any_map {[ k := any_int z ]})
  = inr (StructValue {[ k := NumberValue (float64_of_int z) ]}).
Proof.
  intros Hk. cbn [structpb_NewValue].
  rewrite map_fold_singleton, Hk. cbn [structpb_NewValue].
  by rewrite insert_empty.
Qed.

Lemma NewValue_requestProps :
  structpb_NewValue (any_map {[
      "category" := any_string "topic";
      "priceMin" := any_float64 10%float ]})
  = inr (StructValue {[
      "category" := StringValue "topic";
      "priceMin" := NumberValue 10%float ]}).
Proof. vm_compute. reflexivity. Qed.

(** ** The insertions of a product list *)

Lemma newTestRequestInsertions_from (products : list Product) (insertions : list Insertion) :
  for_range_var products (λ insertions product,
      insertionPropsValue ←
        match structpb_NewValue (any_map {[ "price" := any_int (Price product) ]}) with
        | inl err =>
          fmt_Println [a_string "insertion structpb.NewValue failed"] ;; panic err
        | inr v => mret v
        end;
      mret (insertions ++ [ {|
        ContentId := ID product;
        Insertion_Properties := Some {|
          StructField := {| Struct_ := GetStructValue insertionPropsValue |} |} |} ])%list)
    insertions
  = ([], inr (insertions ++ (product_insertion <$> products))%list).
Proof.
  revert insertions. induction products as [|product products IH]; intros insertions.
  - cbn [for_range_var fmap list_fmap]. by rewrite app_nil_r.
  - cbn [for_range_var].
    rewrite NewValue_singleton_int by (vm_compute; reflexivity).
    rewrite !mbind_mret, IH. cbn [GetStructValue].
    by rewrite <- app_assoc.
Qed.

Lemma newTestRequestInsertions_map (products : list Product) :
  newTestRequestInsertions products = ([], inr (product_insertion <$> products)).
Proof. unfold newTestRequestInsertions. by rewrite newTestRequestInsertions_from. Qed.

Lemma Part000_main_insertions_from (products : list Product)
    (insertions : list Insertion) (productsMap : gmap string Product) :
  foldl (λ '(insertions, productsMap) product,
           ((insertions ++ [ {| ContentId := ID product;
                                Insertion_Properties := None |} ])%list,
            <[ID product := product]> productsMap))
        (insertions, productsMap) products
  = ((insertions ++ ((λ product, {| ContentId := ID product;
                                    Insertion_Properties := None |}) <$> products))%list,
     foldl (λ productsMap product, <[ID product := product]> productsMap)
           productsMap products).
Proof.
  revert insertions productsMap.
  induction products as [|product products IH]; intros insertions productsMap.
  - cbn. by rewrite app_nil_r.
  - cbn [foldl]. rewrite IH. cbn [fmap list_fmap]. by rewrite <- app_assoc.
Qed.

(** ** The request *)

Lemma newTestRequest_eq (insertions : list Insertion) (onlyLog : bool) :
  newTestRequest insertions onlyLog = inr {|
    Request_ := {|
      Request_UserInfo := {| AnonUserId := "testAnonUserId1"; UserId := "testUserId1" |};
      Request_UseCase := UseCase_SEARCH;
      SearchQuery := "query";
      Request_Paging := {| Starting := Paging_Offset 0; Size := 3 |};
      DisablePersonalization := false;
      Request_Properties := {|
        StructField := {| Struct_ := Some {[
          "category" := StringValue "topic";
          "priceMin" := NumberValue 10%float ]} |} |};
      Request_Insertion := insertions |};
    DeliveryRequest_OnlyLog := onlyLog |}.
Proof. unfold newTestRequest. by rewrite NewValue_requestProps. Qed.

(** ** The configuration *)

Lemma os_Getenv_eq env key :
  os_Getenv env key = ([os_Getenv_call key], inr (default "" (env !! key))).
Proof. reflexivity. Qed.

Lemma os_LookupEnv_eq env key :
  os_LookupEnv env key = ([os_LookupEnv_call key], inr (env !! key)).
Proof. reflexivity. Qed.

Lemma parseBoolEnv_eq env key defaultValue :
  parseBoolEnv env key defaultValue
  = ([os_LookupEnv_call key],
     inr (default defaultValue (env !! key ≫= strconv_ParseBool))).
Proof.
  unfold parseBoolEnv. rewrite os_LookupEnv_eq, mbind_inr.
  destruct (env !! key) as [val|]; [|done]. cbn [mbind option_bind].
  by destruct (strconv_ParseBool val).
Qed.

Lemma parseFloatEnv_eq env strconv_ParseFloat key defaultValue :
  parseFloatEnv env strconv_ParseFloat key defaultValue
  = ([os_LookupEnv_call key],
     inr (default defaultValue (env !! key ≫= strconv_ParseFloat))).
Proof.
  unfold parseFloatEnv. rewrite os_LookupEnv_eq, mbind_inr.
  destruct (env !! key) as [val|]; [|done]. cbn [mbind option_bind].
  by destruct (strconv_ParseFloat val).
Qed.

Lemma main_config_eq env strconv_ParseFloat :
  main_config env strconv_ParseFloat
  = (config_reads, inr (env_config env strconv_ParseFloat)).
Proof.
  unfold main_config.
  rewrite !os_Getenv_eq, !parseBoolEnv_eq, parseFloatEnv_eq.
  by rewrite !mbind_inr.
Qed.

(** ** The run of [main] *)

Lemma NewPromotedDeliveryClient_eq PromotedDeliveryClient
    (Build : PromotedDeliveryClientBuilder → error + PromotedDeliveryClient) config :
  NewPromotedDeliveryClient PromotedDeliveryClient Build config
  = ([Build_call (client_builder config)], inr (Build (client_builder config))).
Proof. reflexivity. Qed.

Lemma client_Deliver_eq PromotedDeliveryClient
    (Deliver : PromotedDeliveryClient → DeliveryRequest → error + DeliveryResponse)
    client req :
  client_Deliver PromotedDeliveryClient Deliver client req
  = ([Deliver_call req], inr (Deliver client req)).
Proof. reflexivity. Qed.

Lemma main_eq env strconv_ParseFloat PromotedDeliveryClient
    (Build : PromotedDeliveryClientBuilder → error + PromotedDeliveryClient)
    (Deliver : PromotedDeliveryClient → DeliveryRequest → error + DeliveryResponse) :
  let config := env_config env strconv_ParseFloat in
  ∃ req,
    newTestRequest (product_insertion <$> getProducts) (OnlyLog config) = inr req ∧
    main env strconv_ParseFloat PromotedDeliveryClient Build Deliver =
    match validateConfig config with
    | Some err =>
      ((config_reads ++ [Fprintf_Stderr_call ("Error: %v" ++ LF) [a_error err]])%list,
       inl (os_Exit_halt 1))
    | None =>
      match Build (client_builder config) with
      | inl err =>
        ((config_reads ++ [
            Build_call (client_builder config);
            Println_call [a_string "Error initializing PromotedDeliveryClient"] ])%list,
         inl (panic_halt err))
      | inr client =>
        match Deliver client req with
        | inl err =>
          ((config_reads ++ [
              Build_call (client_builder config);
              Deliver_call req;
              Println_call [a_string "Delivery called failed"] ])%list,
           inl (panic_halt err))
        | inr response =>
          ((config_reads ++ [Build_call (client_builder config); Deliver_call req]
              ++ print_header response
              ++ (print_insertion (main_productsMap getProducts)
                    <$> Response_Insertion (Response_ response)))%list,
           inr ())
        end
      end
    end.
Proof.
  cbv zeta. eexists. split; [apply newTestRequest_eq|].
  unfold main. rewrite main_config_eq, mbind_inr. cbv zeta.
  destruct (validateConfig _) as [err|].
  { unfold fmt_Fprintf_Stderr. by rewrite mbind_call. }
  rewrite mbind_mret, NewPromotedDeliveryClient_eq, mbind_inr.
  destruct (Build _) as [err|client].
  { unfold fmt_Println. by rewrite mbind_call. }
  rewrite mbind_mret, newTestRequestInsertions_map, mbind_nil, newTestRequest_eq, mbind_mret.
  rewrite client_Deliver_eq, mbind_inr.
  destruct (Deliver _ _) as [err|response].
  { unfold fmt_Println. by rewrite mbind_call. }
  rewrite mbind_mret. unfold fmt_Printf. rewrite !mbind_call.
  rewrite (for_range_ext _ _
    (λ x, call (print_insertion (main_productsMap getProducts) x))).
  - by rewrite for_range_calls.
  - intros insertion. unfold print_insertion.
    by destruct (main_productsMap getProducts !! ContentId insertion).
Qed.

(** ** The catalog *)

(** Every key of the products map is the [ID] of the product it holds. *)
Lemma main_productsMap_ID (products : list Product) (k : string) (product : Product) :
  main_productsMap products !! k = Some product → ID product = k.
Proof.
  unfold main_productsMap.
  assert (∀ m : gmap string Product,
    (∀ k p, m !! k = Some p → ID p = k) →
    ∀ k p, foldl (λ productsMap product, <[ID product := product]> productsMap) m products
             !! k = Some p → ID p = k) as Hfold.
  { induction products as [|x products IH]; intros m Hm; [exact Hm|].
    cbn [foldl]. apply IH. intros k' p'. rewrite lookup_insert.
    case_decide; [naive_solver | apply Hm]. }
  apply Hfold. intros k' p'. by rewrite lookup_empty.
Qed.

(** C7. The catalog is the fixed list of two products, "1" / "Product 1" /
    100 followed by "2" / "Product 2" / 200, and the products map that
    [main] builds from it has exactly the keys "1" and "2", each mapped to
    its product. *)
Theorem getProducts_catalog :
  getProducts = [
    {| ID := "1"; Name := "Product 1"; Price := 100 |};
    {| ID := "2"; Name := "Product 2"; Price := 200 |} ]
  ∧ dom (main_productsMap getProducts) = ({[ "1"; "2" ]} : gset string)
  ∧ main_productsMap getProducts !! "1"
    = Some {| ID := "1"; Name := "Product 1"; Price := 100 |}
  ∧ main_productsMap getProducts !! "2"
    = Some {| ID := "2"; Name := "Product 2"; Price := 200 |}
  ∧ (∀ k, k ≠ "1" → k ≠ "2" → main_productsMap getProducts !! k = None).
Proof.
  split; [reflexivity|].
  assert (main_productsMap getProducts
          = <["2" := {| ID := "2"; Name := "Product 2"; Price := 200 |}]>
              (<["1" := {| ID := "1"; Name := "Product 1"; Price := 100 |}]> ∅)) as ->
    by reflexivity.
  split; [|split; [|split]].
  - rewrite !dom_insert_L, dom_empty_L. set_solver.
  - by rewrite lookup_insert_ne, lookup_insert_eq.
  - by rewrite lookup_insert_eq.
  - intros k H1 H2. by rewrite !lookup_insert_ne, lookup_empty.
Qed.

(** ** The request *)

(** C4. For every insertion list and [onlyLog] flag, [newTestRequest]
    succeeds, and the request it returns has the fixed user info, use case,
    search query, paging, personalization flag and request properties, with
    the insertions and the flag as given; equal arguments give equal
    requests. *)
Theorem newTestRequest_static (insertions : list Insertion) (onlyLog : bool) :
  (∃ req,
    newTestRequest insertions onlyLog = inr req
    ∧ AnonUserId (Request_UserInfo (Request_ req)) = "testAnonUserId1"
    ∧ UserId (Request_UserInfo (Request_ req)) = "testUserId1"
    ∧ Request_UseCase (Request_ req) = UseCase_SEARCH
    ∧ SearchQuery (Request_ req) = "query"
    ∧ Starting (Request_Paging (Request_ req)) = Paging_Offset 0
    ∧ Size (Request_Paging (Request_ req)) = 3
    ∧ DisablePersonalization (Request_ req) = false
    ∧ Struct_ (StructField (Request_Properties (Request_ req)))
      = Some {[ "category" := StringValue "topic"; "priceMin" := NumberValue 10%float ]}
    ∧ Request_Insertion (Request_ req) = insertions
    ∧ DeliveryRequest_OnlyLog req = onlyLog)
  ∧ (∀ insertions' onlyLog',
      insertions = insertions' → onlyLog = onlyLog' →
      newTestRequest insertions onlyLog = newTestRequest insertions' onlyLog').
Proof.
  split.
  - eexists. split; [apply newTestRequest_eq|]. cbn. repeat split.
  - by intros ?? -> ->.
Qed.

(** ** The insertions *)

(** C9. [newTestRequestInsertions] maps the product list in order: it
    returns, without output or panic, a list of the same length whose i-th
    insertion has the i-th product's [ID] as [ContentId] and a properties
    struct whose only entry, "price", is the number value of that product's
    [Price]. *)
Theorem newTestRequestInsertions_order_preserving (products : list Product) :
  ∃ insertions,
    newTestRequestInsertions products = ([], inr insertions)
    ∧ length insertions = length products
    ∧ (∀ i product, products !! i = Some product →
        ∃ insertion fields,
          insertions !! i = Some insertion
          ∧ ContentId insertion = ID product
          ∧ Insertion_Properties insertion
            = Some {| StructField := {| Struct_ := Some fields |} |}
          ∧ fields !! "price" = Some (NumberValue (float64_of_int (Price product)))
          ∧ dom fields = ({[ "price" ]} : gset string))
    ∧ (∀ i, products !! i = None → insertions !! i = None).
Proof.
  exists (product_insertion <$> products). split; [apply newTestRequestInsertions_map|].
  split; [apply length_fmap|]. split.
  - intros i product Hi. eexists _, _. rewrite list_lookup_fmap, Hi.
    split; [reflexivity|]. cbn. by repeat split.
  - intros i Hi. by rewrite list_lookup_fmap, Hi.
Qed.

(** C10. For the same product list, the insertions of
    [newTestRequestInsertions] and the insertions that part 000 builds
    inline have the same length and the same [ContentId] at every position;
    the inline ones carry no properties, the others the price property
    alone. *)
Theorem insertions_agree_with_part_000 (products : list Product) :
  ∃ insertions,
    newTestRequestInsertions products = ([], inr insertions)
    ∧ length insertions = length (Part000.main_insertions products).1
    ∧ ContentId <$> insertions = ContentId <$> (Part000.main_insertions products).1
    ∧ (∀ i a b,
        insertions !! i = Some a →
        (Part000.main_insertions products).1 !! i = Some b →
        ContentId a = ContentId b
        ∧ Insertion_Properties b = None
        ∧ ∃ fields,
            Insertion_Properties a = Some {| StructField := {| Struct_ := Some fields |} |}
            ∧ dom fields = ({[ "price" ]} : gset string)).
Proof.
  exists (product_insertion <$> products). split; [apply newTestRequestInsertions_map|].
  unfold Part000.main_insertions. rewrite Part000_main_insertions_from. cbn [fst app].
  split; [by rewrite !length_fmap|]. split.
  - rewrite <- !list_fmap_compose. reflexivity.
  - intros i a b. rewrite !list_lookup_fmap.
    destruct (products !! i) as [product|]; [|done].
    cbn. intros [= <-] [= <-]. cbn. repeat split.
    eexists. split; [reflexivity|]. apply dom_singleton_L.
Qed.

(** ** Reading the configuration *)

(** C2, as amended. The [Config] literal makes exactly seven reads of the
    environment, in field order: four plain [os.Getenv] reads, whose value
    is the variable's string (empty when it is not set), and three reads
    with coercion and a default, two through [parseBoolEnv] and one through
    [parseFloatEnv]. *)
Theorem main_config_seven_reads (env : gmap string string)
    (strconv_ParseFloat : string → option float) :
  trace (main_config env strconv_ParseFloat) = [
    os_Getenv_call "METRICS_API_ENDPOINT_URL";
    os_Getenv_call "METRICS_API_KEY";
    os_Getenv_call "DELIVERY_API_ENDPOINT_URL";
    os_Getenv_call "DELIVERY_API_KEY";
    os_LookupEnv_call "ONLY_LOG";
    os_LookupEnv_call "SHADOW_TRAFFIC_DELIVERY_RATE";
    os_LookupEnv_call "BLOCKING_SHADOW_TRAFFIC" ]
  ∧ ∃ config,
      result (main_config env strconv_ParseFloat) = inr config
      ∧ inr (MetricsApiEndpointUrl config) = result (os_Getenv env "METRICS_API_ENDPOINT_URL")
      ∧ inr (MetricsApiKey config) = result (os_Getenv env "METRICS_API_KEY")
      ∧ inr (DeliveryApiEndpointUrl config) = result (os_Getenv env "DELIVERY_API_ENDPOINT_URL")
      ∧ inr (DeliveryApiKey config) = result (os_Getenv env "DELIVERY_API_KEY")
      ∧ inr (OnlyLog config) = result (parseBoolEnv env "ONLY_LOG" false)
      ∧ inr (ShadowTrafficDeliveryRate config)
        = result (parseFloatEnv env strconv_ParseFloat "SHADOW_TRAFFIC_DELIVERY_RATE" 0%float)
      ∧ inr (BlockingShadowTraffic config)
        = result (parseBoolEnv env "BLOCKING_SHADOW_TRAFFIC" false)
      ∧ (∀ key, result (os_Getenv env key) = inr (default "" (env !! key))).
Proof.
  rewrite main_config_eq. split; [reflexivity|].
  exists (env_config env strconv_ParseFloat).
  rewrite !parseBoolEnv_eq, parseFloatEnv_eq. by repeat split.
Qed.

(** C2, as stated, fails: the reads of the configuration are not four
    coerced reads; they are seven, of which three are coerced. *)
Lemma main_config_not_four_reads :
  let reads := trace (main_config sample_env sample_ParseFloat) in
  ¬ (length reads = 4%nat)
  ∧ ¬ (∃ k1 k2 k3 k4, reads = [
        os_LookupEnv_call k1; os_LookupEnv_call k2;
        os_LookupEnv_call k3; os_LookupEnv_call k4 ])
  ∧ length reads = 7%nat
  ∧ length (List.filter is_coerced_read reads) = 3%nat.
Proof.
  cbv zeta. rewrite main_config_eq. cbn [trace fst config_reads].
  split; [discriminate|]. split; [|split; reflexivity].
  by intros (k1 & k2 & k3 & k4 & H).
Qed.

(** C3, as amended. [parseBoolEnv] and [parseFloatEnv] make one read and
    return the default whenever the variable is absent or its value does
    not parse, and the parsed value otherwise (which may be the default
    itself). With ONLY_LOG, SHADOW_TRAFFIC_DELIVERY_RATE and
    BLOCKING_SHADOW_TRAFFIC unset, the configuration has [OnlyLog = false],
    [ShadowTrafficDeliveryRate = 0.0] and [BlockingShadowTraffic = false]. *)
Theorem parseEnv_default_or_parsed (env : gmap string string)
    (strconv_ParseFloat : string → option float) :
  (∀ key defaultValue,
     (env !! key = None ∨ ∃ val, env !! key = Some val ∧ strconv_ParseBool val = None) →
     parseBoolEnv env key defaultValue = ([os_LookupEnv_call key], inr defaultValue))
  ∧ (∀ key defaultValue val parsed,
     env !! key = Some val → strconv_ParseBool val = Some parsed →
     parseBoolEnv env key defaultValue = ([os_LookupEnv_call key], inr parsed))
  ∧ (∀ key defaultValue,
     (env !! key = None ∨ ∃ val, env !! key = Some val ∧ strconv_ParseFloat val = None) →
     parseFloatEnv env strconv_ParseFloat key defaultValue
     = ([os_LookupEnv_call key], inr defaultValue))
  ∧ (∀ key defaultValue val parsed,
     env !! key = Some val → strconv_ParseFloat val = Some parsed →
     parseFloatEnv env strconv_ParseFloat key defaultValue
     = ([os_LookupEnv_call key], inr parsed))
  ∧ (env !! "ONLY_LOG" = None →
     env !! "SHADOW_TRAFFIC_DELIVERY_RATE" = None →
     env !! "BLOCKING_SHADOW_TRAFFIC" = None →
     ∃ config,
       result (main_config env strconv_ParseFloat) = inr config
       ∧ OnlyLog config = false
       ∧ ShadowTrafficDeliveryRate config = 0%float
       ∧ BlockingShadowTraffic config = false).
Proof.
  split; [|split; [|split; [|split]]].
  - intros key d [H|(val & H & Hp)]; rewrite parseBoolEnv_eq, H; cbn; [done|].
    by rewrite Hp.
  - intros key d val parsed H Hp. rewrite parseBoolEnv_eq, H. cbn. by rewrite Hp.
  - intros key d [H|(val & H & Hp)]; rewrite parseFloatEnv_eq, H; cbn; [done|].
    by rewrite Hp.
  - intros key d val parsed H Hp. rewrite parseFloatEnv_eq, H. cbn. by rewrite Hp.
  - intros H1 H2 H3. exists (env_config env strconv_ParseFloat).
    rewrite main_config_eq. unfold env_config. cbn [result snd OnlyLog
      ShadowTrafficDeliveryRate BlockingShadowTraffic].
    by rewrite H1, H2, H3.
Qed.

(** A run of C3's last part: the sample environment sets none of the three
    variables. *)
Lemma parseEnv_default_or_parsed_sample :
  ∃ config,
    result (main_config sample_env sample_ParseFloat) = inr config
    ∧ OnlyLog config = false
    ∧ ShadowTrafficDeliveryRate config = 0%float
    ∧ BlockingShadowTraffic config = false.
Proof.
  apply (parseEnv_default_or_parsed sample_env sample_ParseFloat); reflexivity.
Defined.

(** C3, as stated, fails in its "only if": with ONLY_LOG=false the
    variable is present and parses, and [parseBoolEnv] still returns a
    value equal to the default [false]. *)
Lemma parseBoolEnv_default_not_only_if :
  ¬ (∀ (env : gmap string string) key defaultValue,
       result (parseBoolEnv env key defaultValue) = inr defaultValue
       ↔ (env !! key = None
          ∨ ∃ val, env !! key = Some val ∧ strconv_ParseBool val = None)).
Proof.
  intros H.
  assert (result (parseBoolEnv {[ "ONLY_LOG" := "false" ]} "ONLY_LOG" false) = inr false)
    as Hrun by (vm_compute; reflexivity).
  apply H in Hrun as [Habs|(val & Hval & Hparse)].
  - vm_compute in Habs. discriminate Habs.
  - vm_compute in Hval. injection Hval as <-. vm_compute in Hparse. discriminate Hparse.
Qed.

(** ** Validating the configuration *)

(** C8. [validateConfig] returns an error exactly when one of the four
    strings is empty, the error names the first empty one in the order
    metrics endpoint, metrics key, delivery endpoint, delivery key; and when
    the configuration that [main] read is refused, [main] exits with status
    1 and its trace has no [Build] and no [Deliver] call. *)
Theorem validateConfig_first_empty (config : Config) :
  (is_Some (validateConfig config)
   ↔ (MetricsApiEndpointUrl config = "" ∨ MetricsApiKey config = ""
      ∨ DeliveryApiEndpointUrl config = "" ∨ DeliveryApiKey config = ""))
  ∧ (MetricsApiEndpointUrl config = "" →
     validateConfig config
     = Some (errors_New "metricsApiEndpointUrl needs to be specified"))
  ∧ (MetricsApiEndpointUrl config ≠ "" → MetricsApiKey config = "" →
     validateConfig config = Some (errors_New "metricsApiKey needs to be specified"))
  ∧ (MetricsApiEndpointUrl config ≠ "" → MetricsApiKey config ≠ "" →
     DeliveryApiEndpointUrl config = "" →
     validateConfig config
     = Some (errors_New "deliveryApiEndpointUrl needs to be specified"))
  ∧ (MetricsApiEndpointUrl config ≠ "" → MetricsApiKey config ≠ "" →
     DeliveryApiEndpointUrl config ≠ "" → DeliveryApiKey config = "" →
     validateConfig config = Some (errors_New "deliveryApiKey needs to be specified"))
  ∧ (∀ env strconv_ParseFloat PromotedDeliveryClient
       (Build : PromotedDeliveryClientBuilder → error + PromotedDeliveryClient)
       (Deliver : PromotedDeliveryClient → DeliveryRequest → error + DeliveryResponse),
     result (main_config env strconv_ParseFloat) = inr config →
     is_Some (validateConfig config) →
     let run := main env strconv_ParseFloat PromotedDeliveryClient Build Deliver in
     result run = inl (os_Exit_halt 1)
     ∧ (∀ b, Build_call b ∉ trace run)
     ∧ (∀ req, Deliver_call req ∉ trace run)).
Proof.
  unfold validateConfig.
  split; [|split; [|split; [|split; [|split]]]].
  - repeat case_decide; split; intros Hx; try (by eauto).
    by destruct Hx as [?|[?|[?|?]]].
  - intros H1. by repeat case_decide.
  - intros H1 H2. by repeat case_decide.
  - intros H1 H2 H3. by repeat case_decide.
  - intros H1 H2 H3 H4. by repeat case_decide.
  - intros env PF C Build Deliver Hc [err Hv]. cbv zeta.
    rewrite main_config_eq in Hc. injection Hc as Hc.
    destruct (main_eq env PF C Build Deliver) as (req & _ & ->).
    cbv zeta. rewrite Hc. unfold validateConfig. rewrite Hv.
    cbn [trace result fst snd config_reads app].
    split; [reflexivity|].
    split; intros x Hin; repeat (apply elem_of_cons in Hin as [Hin|Hin]; [discriminate|]);
      by apply elem_of_nil in Hin.
Qed.

(** C8 at the empty environment: the metrics endpoint is the first empty
    field, and [main] exits with status 1. *)
Lemma validateConfig_first_empty_sample :
  validateConfig (env_config ∅ sample_ParseFloat)
  = Some (errors_New "metricsApiEndpointUrl needs to be specified")
  ∧ result (main ∅ sample_ParseFloat unit sample_Build sample_Deliver)
    = inl (os_Exit_halt 1).
Proof.
  split.
  - apply (validateConfig_first_empty (env_config ∅ sample_ParseFloat)). reflexivity.
  - apply (validateConfig_first_empty (env_config ∅ sample_ParseFloat)).
    + reflexivity.
    + eexists. reflexivity.
Defined.

(** ** Printing the response *)

Lemma main_delivers_run env strconv_ParseFloat PromotedDeliveryClient
    (Build : PromotedDeliveryClientBuilder → error + PromotedDeliveryClient)
    (Deliver : PromotedDeliveryClient → DeliveryRequest → error + DeliveryResponse)
    response :
  main_delivers env strconv_ParseFloat PromotedDeliveryClient Build Deliver response →
  ∃ b req,
    main env strconv_ParseFloat PromotedDeliveryClient Build Deliver
    = ((config_reads ++ [Build_call b; Deliver_call req]
         ++ print_header response
         ++ (print_insertion (main_productsMap getProducts)
               <$> Response_Insertion (Response_ response)))%list,
       inr ()).
Proof.
  intros (config & client & requestInsertions & req & Hc & Hv & Hb & Hi & Hr & Hd).
  rewrite main_config_eq in Hc. injection Hc as <-.
  rewrite NewPromotedDeliveryClient_eq in Hb. injection Hb as Hb.
  rewrite newTestRequestInsertions_map in Hi. injection Hi as <-.
  rewrite client_Deliver_eq in Hd. injection Hd as Hd.
  destruct (main_eq env strconv_ParseFloat PromotedDeliveryClient Build Deliver)
    as (req' & Hr' & ->).
  cbv zeta in Hr'. pose proof (eq_trans (eq_sym Hr') Hr) as Hreq. injection Hreq as ->.
  cbv zeta. rewrite Hv, Hb, Hd. eauto.
Qed.

Lemma print_header_not_line response c :
  c ∈ (config_reads ++ print_header response)%list → printed_ContentId c = None.
Proof.
  intros Hin. cbn [config_reads print_header app] in Hin.
  repeat (apply elem_of_cons in Hin as [->|Hin]; [reflexivity|]).
  by apply elem_of_nil in Hin.
Qed.

Lemma print_insertion_ContentId (products : list Product) (insertion : Insertion) :
  printed_ContentId (print_insertion (main_productsMap products) insertion)
  = Some (ContentId insertion).
Proof.
  unfold print_insertion.
  destruct (main_productsMap products !! ContentId insertion) as [product|] eqn:Hp.
  - apply main_productsMap_ID in Hp as <-. reflexivity.
  - reflexivity.
Qed.

Lemma sample_main_delivers :
  main_delivers sample_env sample_ParseFloat unit sample_Build sample_Deliver
    sample_response.
Proof.
  exists (env_config sample_env sample_ParseFloat), tt.
  eexists _, _. rewrite main_config_eq, newTestRequestInsertions_map.
  split; [reflexivity|]. split; [by vm_compute|]. split; [reflexivity|].
  split; [reflexivity|]. split; [apply newTestRequest_eq|reflexivity].
Qed.

(** C1. For every response that [main] obtains, the run completes and ends
    with one print per returned insertion: the catalog's product when the
    insertion's [ContentId] is a key of the products map built from
    [getProducts], the [ContentId] string itself otherwise. *)
Theorem main_prints_catalog_lookup env strconv_ParseFloat PromotedDeliveryClient
    (Build : PromotedDeliveryClientBuilder → error + PromotedDeliveryClient)
    (Deliver : PromotedDeliveryClient → DeliveryRequest → error + DeliveryResponse)
    response :
  main_delivers env strconv_ParseFloat PromotedDeliveryClient Build Deliver response →
  let run := main env strconv_ParseFloat PromotedDeliveryClient Build Deliver in
  let insertions := Response_Insertion (Response_ response) in
  result run = inr ()
  ∧ ∃ before lines,
      trace run = (before ++ lines)%list
      ∧ length lines = length insertions
      ∧ ∀ i insertion, insertions !! i = Some insertion →
          (∀ product,
             main_productsMap getProducts !! ContentId insertion = Some product →
             lines !! i = Some (Printf_call ("%v" ++ LF) [a_Product product]))
          ∧ (main_productsMap getProducts !! ContentId insertion = None →
             lines !! i = Some (Printf_call ("%v" ++ LF) [a_string (ContentId insertion)])).
Proof.
  intros Hrun. apply main_delivers_run in Hrun as (b & req & ->). cbv zeta.
  split; [reflexivity|].
  exists (config_reads ++ [Build_call b; Deliver_call req] ++ print_header response)%list,
    (print_insertion (main_productsMap getProducts)
       <$> Response_Insertion (Response_ response)).
  split; [cbn [trace fst]; by rewrite <- !app_assoc|].
  split; [apply length_fmap|].
  intros i insertion Hi. rewrite list_lookup_fmap, Hi.
  cbn [fmap option_fmap option_map]. unfold print_insertion.
  split.
  - by intros product ->.
  - by intros ->.
Qed.

(** C1 on the sample run: the response lists "2", "9" and "1"; the run
    prints product 2, the string "9" and product 1. *)
Lemma main_prints_catalog_lookup_sample :
  ∃ before, trace sample_main = (before ++ [
    Printf_call ("%v" ++ LF) [a_Product {| ID := "2"; Name := "Product 2"; Price := 200 |}];
    Printf_call ("%v" ++ LF) [a_string "9"];
    Printf_call ("%v" ++ LF) [a_Product {| ID := "1"; Name := "Product 1"; Price := 100 |}]
  ])%list.
Proof.
  destruct (main_prints_catalog_lookup sample_env sample_ParseFloat unit
              sample_Build sample_Deliver sample_response sample_main_delivers)
    as (_ & before & lines & Htrace & Hlen & Hlines).
  exists before. unfold sample_main. rewrite Htrace. f_equal.
  destruct lines as [|l0 [|l1 [|l2 [|]]]]; try discriminate Hlen.
  pose proof (proj1 (Hlines 0%nat _ eq_refl) _ eq_refl) as H0.
  pose proof (proj2 (Hlines 1%nat _ eq_refl) eq_refl) as H1.
  pose proof (proj1 (Hlines 2%nat _ eq_refl) _ eq_refl) as H2.
  injection H0 as ->. injection H1 as ->. injection H2 as ->. reflexivity.
Defined.

(** C5. For every response that [main] obtains, the lines of the response
    are printed last, one per insertion of the response and in the
    response's order: the content ids of the printed lines are the
    [ContentId]s of the response, and no line of the response is printed
    before them. *)
Theorem main_prints_in_response_order env strconv_ParseFloat PromotedDeliveryClient
    (Build : PromotedDeliveryClientBuilder → error + PromotedDeliveryClient)
    (Deliver : PromotedDeliveryClient → DeliveryRequest → error + DeliveryResponse)
    response :
  main_delivers env strconv_ParseFloat PromotedDeliveryClient Build Deliver response →
  let run := main env strconv_ParseFloat PromotedDeliveryClient Build Deliver in
  let insertions := Response_Insertion (Response_ response) in
  result run = inr ()
  ∧ ∃ before lines,
      trace run = (before ++ lines)%list
      ∧ (∀ c, c ∈ before → printed_ContentId c = None)
      ∧ length lines = length insertions
      ∧ printed_ContentId <$> lines = (λ insertion, Some (ContentId insertion)) <$> insertions.
Proof.
  intros Hrun. apply main_delivers_run in Hrun as (b & req & ->). cbv zeta.
  split; [reflexivity|].
  exists (config_reads ++ [Build_call b; Deliver_call req] ++ print_header response)%list,
    (print_insertion (main_productsMap getProducts)
       <$> Response_Insertion (Response_ response)).
  split; [cbn [trace fst]; by rewrite <- !app_assoc|].
  split; [|split; [apply length_fmap|]].
  - intros c Hin. rewrite !elem_of_app in Hin.
    destruct Hin as [Hin|[Hin|Hin]].
    + apply (print_header_not_line response). rewrite elem_of_app. by left.
    + repeat (apply elem_of_cons in Hin as [->|Hin]; [reflexivity|]).
      by apply elem_of_nil in Hin.
    + apply (print_header_not_line response). rewrite elem_of_app. by right.
  - rewrite <- list_fmap_compose. apply list_fmap_ext.
    intros i insertion _. apply print_insertion_ContentId.
Qed.

(** C5 on the sample run: the printed content ids are "2", "9", "1", the
    order of the response. *)
Lemma main_prints_in_response_order_sample :
  ∃ before lines,
    trace sample_main = (before ++ lines)%list
    ∧ (∀ c, c ∈ before → printed_ContentId c = None)
    ∧ printed_ContentId <$> lines = [Some "2"; Some "9"; Some "1"].
Proof.
  destruct (main_prints_in_response_order sample_env sample_ParseFloat unit
              sample_Build sample_Deliver sample_response sample_main_delivers)
    as (_ & before & lines & Htrace & Hbefore & _ & Hlines).
  exists before, lines. split; [exact Htrace|]. split; [exact Hbefore|exact Hlines].
Defined.

(** ** The order of the steps *)

(** C6. [main] runs its steps in one fixed order. The seven reads of the
    configuration are the first seven calls and the only reads; [Build] is
    called only as the next call and only for a configuration that
    [validateConfig] accepts; [Deliver] is called only as the call after
    that (so at most once), once [Build] has returned a client, and with
    the request that [newTestRequest] built; a [Printf] comes only after
    [Deliver] has returned a response. A refused configuration, a failed
    [Build] and a failed [Deliver] each end the run with one message and
    nothing more. *)
Theorem main_linear_script env strconv_ParseFloat PromotedDeliveryClient
    (Build : PromotedDeliveryClientBuilder → error + PromotedDeliveryClient)
    (Deliver : PromotedDeliveryClient → DeliveryRequest → error + DeliveryResponse) :
  let run := main env strconv_ParseFloat PromotedDeliveryClient Build Deliver in
  ∃ config,
    main_config env strconv_ParseFloat = (take 7 (trace run), inr config)
    ∧ (∀ i c, trace run !! i = Some c → is_env_read c = true → (i < 7)%nat)
    ∧ (∀ i b, trace run !! i = Some (Build_call b) →
         i = 7%nat ∧ validateConfig config = None)
    ∧ (∀ i req, trace run !! i = Some (Deliver_call req) →
         i = 8%nat
         ∧ (∃ b client, trace run !! 7%nat = Some (Build_call b) ∧ Build b = inr client)
         ∧ ∃ requestInsertions,
             newTestRequestInsertions getProducts = ([], inr requestInsertions)
             ∧ newTestRequest requestInsertions (OnlyLog config) = inr req)
    ∧ (∀ i j req req',
         trace run !! i = Some (Deliver_call req) →
         trace run !! j = Some (Deliver_call req') → i = j)
    ∧ (∀ j format a, trace run !! j = Some (Printf_call format a) →
         (8 < j)%nat
         ∧ ∃ b client req response,
             trace run !! 7%nat = Some (Build_call b) ∧ Build b = inr client
             ∧ trace run !! 8%nat = Some (Deliver_call req)
             ∧ Deliver client req = inr response)
    ∧ (∀ err, validateConfig config = Some err →
         run = ((take 7 (trace run)
                  ++ [Fprintf_Stderr_call ("Error: %v" ++ LF) [a_error err]])%list,
                inl (os_Exit_halt 1)))
    ∧ (∀ b err, trace run !! 7%nat = Some (Build_call b) → Build b = inl err →
         run = ((take 8 (trace run)
                  ++ [Println_call [a_string "Error initializing PromotedDeliveryClient"]])%list,
                inl (panic_halt err)))
    ∧ (∀ b client req err,
         trace run !! 7%nat = Some (Build_call b) → Build b = inr client →
         trace run !! 8%nat = Some (Deliver_call req) → Deliver client req = inl err →
         run = ((take 9 (trace run)
                  ++ [Println_call [a_string "Delivery called failed"]])%list,
                inl (panic_halt err))).
Proof.
  cbv zeta.
  destruct (main_eq env strconv_ParseFloat PromotedDeliveryClient Build Deliver)
    as (req0 & Hreq & ->). cbv zeta in Hreq.
  exists (env_config env strconv_ParseFloat). rewrite main_config_eq.
  destruct (validateConfig _) as [err0|] eqn:Hv;
    [|destruct (Build _) as [err0|client0] eqn:HB;
      [|destruct (Deliver _ _) as [err0|response0] eqn:HD]];
    cbn [trace result fst snd config_reads print_header app].
  all: split; [reflexivity|].
  all: split; [intros i c H Hc; walk_trace H; subst; cbn in Hc; try discriminate Hc; lia|].
  all: split; [intros i b H; walk_trace H; split; reflexivity|].
  all: split; [intros i req H; walk_trace H; subst;
    (split; [reflexivity|]; split;
      [eexists _, client0; split; [reflexivity|exact HB]
      |exists (product_insertion <$> getProducts);
       split; [apply newTestRequestInsertions_map|exact Hreq]])|].
  all: split; [intros i j req req' H H'; walk_trace H; walk_trace H'; reflexivity|].
  all: split; [intros j format a H; walk_trace H; subst;
    (split; [lia|]; eexists _, client0, req0, response0;
     split; [reflexivity|]; split; [exact HB|]; split; [reflexivity|exact HD])|].
  all: split; [intros err H; try discriminate H; by injection H as <-|].
  all: split;
    [intros b err H HB'; cbv [lookup list_lookup] in H; try discriminate H;
     injection H as <-; rewrite HB in HB'; try discriminate HB';
     injection HB' as <-; reflexivity|].
  all: intros b client req err H HB' H' HD';
    cbv [lookup list_lookup] in H, H'; try discriminate H; try discriminate H';
    injection H as <-; injection H' as <-; rewrite HB in HB'; injection HB' as <-;
    rewrite HD in HD'; try discriminate HD'; injection HD' as <-; reflexivity.
Qed.


(** * Further properties of the code *)

(** ** The products map of any product list *)

Lemma main_productsMap_snoc (products : list Product) (product : Product) :
  main_productsMap (products ++ [product])
  = <[ID product := product]> (main_productsMap products).
Proof. unfold main_productsMap. by rewrite foldl_app. Qed.

Lemma main_productsMap_elem_of (products : list Product) (k : string) (product : Product) :
  main_productsMap products !! k = Some product → product ∈ products.
Proof.
  induction products as [|x products IH] using rev_ind; [done|].
  rewrite main_productsMap_snoc, lookup_insert, elem_of_app.
  case_decide; [intros [= ->]; right; left|intros ?%IH; by left].
Qed.

(** X1. The loop that fills the products map keeps, for every key, the last
    product of the list with that [ID]: a later product replaces an
    earlier one with the same [ID], and a key that no product has is
    missing. *)
Theorem main_productsMap_last_wins (products : list Product) (k : string) :
  main_productsMap products !! k = last (filter (λ product, ID product = k) products).
Proof.
  induction products as [|product products IH] using rev_ind.
  - reflexivity.
  - rewrite main_productsMap_snoc, filter_app, lookup_insert.
    case_decide as Hk.
    + rewrite filter_cons_True, filter_nil by done. by rewrite last_snoc.
    + rewrite filter_cons_False, filter_nil, app_nil_r by done. exact IH.
Qed.

(** X2. When the products have pairwise different [ID]s, the products map
    loses none of them: each product is found under its own [ID], and the
    map has as many entries as the list has products. *)
Theorem main_productsMap_round_trip (products : list Product) :
  NoDup (ID <$> products) →
  (∀ product, product ∈ products →
     main_productsMap products !! ID product = Some product)
  ∧ size (main_productsMap products) = length products.
Proof.
  induction products as [|x products IH] using rev_ind; intros Hnd.
  - split; [by intros product ?%elem_of_nil|reflexivity].
  - rewrite fmap_app in Hnd. apply NoDup_app in Hnd as (Hnd & Hfresh & _).
    destruct (IH Hnd) as [IHl IHs].
    assert (main_productsMap products !! ID x = None) as Hnone.
    { destruct (main_productsMap products !! ID x) as [y|] eqn:Hy; [|done].
      exfalso. apply (Hfresh (ID x)); [|by left].
      rewrite <- (main_productsMap_ID _ _ _ Hy).
      apply list_elem_of_fmap_2. by eapply main_productsMap_elem_of. }
    rewrite main_productsMap_snoc. split.
    + intros product [Hin|Hin]%elem_of_app.
      * rewrite lookup_insert_ne; [by apply IHl|].
        intros Heq. apply (Hfresh (ID product)).
        -- by apply list_elem_of_fmap_2.
        -- rewrite <- Heq. cbn. left.
      * apply list_elem_of_singleton in Hin as ->. apply lookup_insert_eq.
    + rewrite map_size_insert_None, length_app by done. cbn. lia.
Qed.

(** X2 on the catalog, whose two [ID]s differ. *)
Lemma main_productsMap_round_trip_catalog :
  (∀ product, product ∈ getProducts →
     main_productsMap getProducts !! ID product = Some product)
  ∧ size (main_productsMap getProducts) = 2%nat.
Proof.
  apply (main_productsMap_round_trip getProducts).
  apply NoDup_cons. split; [|apply NoDup_singleton].
  intros Hin%list_elem_of_singleton. discriminate Hin.
Defined.

Lemma main_productsMap_is_Some (products : list Product) (product : Product) :
  product ∈ products → is_Some (main_productsMap products !! ID product).
Proof.
  induction products as [|x products IH] using rev_ind; [by intros ?%elem_of_nil|].
  rewrite main_productsMap_snoc, lookup_insert, elem_of_app.
  case_decide as Hx; [by eexists|].
  intros [Hin|Hin]; [by apply IH|].
  apply list_elem_of_singleton in Hin as ->. done.
Qed.

(** ** The request and the products map together *)

(** X3. For every product list, each insertion that
    [newTestRequestInsertions] puts in the request has a [ContentId] that
    is a key of the products map built from the same list, and the product
    found there is one of the list with that [ID]. *)
Theorem request_ContentIds_in_productsMap (products : list Product) :
  ∃ insertions,
    newTestRequestInsertions products = ([], inr insertions)
    ∧ ∀ insertion, insertion ∈ insertions →
        ∃ product,
          main_productsMap products !! ContentId insertion = Some product
          ∧ ID product = ContentId insertion
          ∧ product ∈ products.
Proof.
  exists (product_insertion <$> products). split; [apply newTestRequestInsertions_map|].
  intros insertion (x & -> & Hx)%list_elem_of_fmap.
  destruct (main_productsMap_is_Some products x Hx) as [product Hp].
  exists product. cbn [ContentId product_insertion].
  split; [exact Hp|]. split.
  - by eapply main_productsMap_ID.
  - by eapply main_productsMap_elem_of.
Qed.

(** X10. [newTestRequestInsertions] works product by product: no products
    give no insertions, and the insertions of two lists put end to end are
    the insertions of the first followed by those of the second. *)
Theorem newTestRequestInsertions_app (products1 products2 : list Product) :
  newTestRequestInsertions [] = ([], inr [])
  ∧ ∃ insertions1 insertions2,
      newTestRequestInsertions products1 = ([], inr insertions1)
      ∧ newTestRequestInsertions products2 = ([], inr insertions2)
      ∧ newTestRequestInsertions (products1 ++ products2)
        = ([], inr (insertions1 ++ insertions2)%list).
Proof.
  split; [reflexivity|].
  exists (product_insertion <$> products1), (product_insertion <$> products2).
  rewrite !newTestRequestInsertions_map. by rewrite fmap_app.
Qed.

(** X11. The loop of part 000 fills the same products map as the loop of
    [main.go], for every product list. *)
Theorem part_000_productsMap_agrees (products : list Product) :
  (Part000.main_insertions products).2 = main_productsMap products.
Proof.
  unfold Part000.main_insertions. by rewrite Part000_main_insertions_from.
Qed.

(** ** What the environment decides *)

Lemma Getenv_empty (env : gmap string string) (key : string) :
  default "" (env !! key) = "" ↔ env !! key = None ∨ env !! key = Some "".
Proof.
  destruct (env !! key) as [val|]; cbn; [|split; [by left|done]].
  split; [intros ->; by right|]. by intros [?|[= ->]].
Qed.

Lemma validateConfig_None (config : Config) :
  validateConfig config = None
  ↔ MetricsApiEndpointUrl config ≠ "" ∧ MetricsApiKey config ≠ ""
    ∧ DeliveryApiEndpointUrl config ≠ "" ∧ DeliveryApiKey config ≠ "".
Proof.
  unfold validateConfig.
  repeat case_decide; (split; [intros Hv; try discriminate Hv; by repeat split|]);
    intros (? & ? & ? & ?); done.
Qed.

(** X5. Whatever the client library does, [main] ends with [os.Exit(1)]
    exactly when one of the four required variables is not set or is set
    to the empty string. *)
Theorem main_exits_iff_variable_missing env strconv_ParseFloat PromotedDeliveryClient
    (Build : PromotedDeliveryClientBuilder → error + PromotedDeliveryClient)
    (Deliver : PromotedDeliveryClient → DeliveryRequest → error + DeliveryResponse) :
  result (main env strconv_ParseFloat PromotedDeliveryClient Build Deliver)
  = inl (os_Exit_halt 1)
  ↔ ∃ key, key ∈ required_variables ∧ (env !! key = None ∨ env !! key = Some "").
Proof.
  destruct (main_eq env strconv_ParseFloat PromotedDeliveryClient Build Deliver)
    as (req & _ & ->). cbv zeta.
  destruct (validateConfig _) as [err|] eqn:Hv.
  - split; [intros _|reflexivity].
    destruct (decide (MetricsApiEndpointUrl (env_config env strconv_ParseFloat) = ""))
      as [H1|H1]; [apply Getenv_empty in H1; eexists; split; [|exact H1]; by repeat constructor|].
    destruct (decide (MetricsApiKey (env_config env strconv_ParseFloat) = ""))
      as [H2|H2]; [apply Getenv_empty in H2; eexists; split; [|exact H2]; by repeat constructor|].
    destruct (decide (DeliveryApiEndpointUrl (env_config env strconv_ParseFloat) = ""))
      as [H3|H3]; [apply Getenv_empty in H3; eexists; split; [|exact H3]; by repeat constructor|].
    destruct (decide (DeliveryApiKey (env_config env strconv_ParseFloat) = ""))
      as [H4|H4]; [apply Getenv_empty in H4; eexists; split; [|exact H4]; by repeat constructor|].
    assert (validateConfig (env_config env strconv_ParseFloat) = None) as Hn
      by by apply validateConfig_None.
    rewrite Hn in Hv. discriminate Hv.
  - apply validateConfig_None in Hv as (H1 & H2 & H3 & H4).
    split.
    + destruct (Build _); [discriminate|]. destruct (Deliver _ _); discriminate.
    + intros (key & Hin & Hkey%Getenv_empty). exfalso.
      unfold required_variables in Hin.
      repeat (apply elem_of_cons in Hin as [->|Hin]; [by auto|]).
      by apply elem_of_nil in Hin.
Qed.

(** X6. A run of [main] depends on the environment through five variables
    only: two environments that agree on the four required variables and
    on ONLY_LOG give the same run, whatever SHADOW_TRAFFIC_DELIVERY_RATE,
    BLOCKING_SHADOW_TRAFFIC and the float parser are. *)
Theorem main_ignores_other_variables (env env' : gmap string string)
    (strconv_ParseFloat strconv_ParseFloat' : string → option float)
    PromotedDeliveryClient
    (Build : PromotedDeliveryClientBuilder → error + PromotedDeliveryClient)
    (Deliver : PromotedDeliveryClient → DeliveryRequest → error + DeliveryResponse) :
  (∀ key, key ∈ "ONLY_LOG" :: required_variables → env !! key = env' !! key) →
  main env strconv_ParseFloat PromotedDeliveryClient Build Deliver
  = main env' strconv_ParseFloat' PromotedDeliveryClient Build Deliver.
Proof.
  intros Hagree.
  assert (env !! "ONLY_LOG" = env' !! "ONLY_LOG") as H0
    by (apply Hagree; by repeat constructor).
  assert (env !! "METRICS_API_ENDPOINT_URL" = env' !! "METRICS_API_ENDPOINT_URL") as H1
    by (apply Hagree; by repeat constructor).
  assert (env !! "METRICS_API_KEY" = env' !! "METRICS_API_KEY") as H2
    by (apply Hagree; by repeat constructor).
  assert (env !! "DELIVERY_API_ENDPOINT_URL" = env' !! "DELIVERY_API_ENDPOINT_URL") as H3
    by (apply Hagree; by repeat constructor).
  assert (env !! "DELIVERY_API_KEY" = env' !! "DELIVERY_API_KEY") as H4
    by (apply Hagree; by repeat constructor).
  assert (validateConfig (env_config env' strconv_ParseFloat')
          = validateConfig (env_config env strconv_ParseFloat)) as Hv.
  { unfold validateConfig, env_config.
    cbn [MetricsApiEndpointUrl MetricsApiKey DeliveryApiEndpointUrl DeliveryApiKey].
    by rewrite H1, H2, H3, H4. }
  assert (client_builder (env_config env' strconv_ParseFloat')
          = client_builder (env_config env strconv_ParseFloat)) as Hb.
  { unfold client_builder, env_config.
    cbn [MetricsApiEndpointUrl MetricsApiKey DeliveryApiEndpointUrl DeliveryApiKey].
    by rewrite H1, H2, H3, H4. }
  assert (OnlyLog (env_config env' strconv_ParseFloat')
          = OnlyLog (env_config env strconv_ParseFloat)) as Ho.
  { unfold env_config. cbn [OnlyLog]. by rewrite H0. }
  destruct (main_eq env strconv_ParseFloat PromotedDeliveryClient Build Deliver)
    as (req & Hreq & ->).
  destruct (main_eq env' strconv_ParseFloat' PromotedDeliveryClient Build Deliver)
    as (req' & Hreq' & ->).
  cbv zeta in *. rewrite Ho in Hreq'.
  pose proof (eq_trans (eq_sym Hreq') Hreq) as Hsame. injection Hsame as ->.
  rewrite Hv, Hb. reflexivity.
Qed.

(** X6 on two sample environments: setting the shadow-traffic variables and
    an unrelated one, and changing the float parser, leaves the run as it
    was. *)
Lemma main_ignores_other_variables_sample :
  sample_main = main sample_env_more (λ _, None) unit sample_Build sample_Deliver.
Proof.
  apply (main_ignores_other_variables sample_env sample_env_more).
  intros key Hin. unfold required_variables in Hin.
  repeat (apply elem_of_cons in Hin as [->|Hin]; [by vm_compute|]).
  by apply elem_of_nil in Hin.
Defined.

Lemma ParseBool_true (val : string) :
  strconv_ParseBool val = Some true
  ↔ val ∈ ["1"; "t"; "T"; "TRUE"; "true"; "True"].
Proof.
  unfold strconv_ParseBool. repeat case_bool_decide; split; try done.
Qed.

(** X9. The request that [main] sends asks for log-only delivery exactly
    when ONLY_LOG is set to one of 1, t, T, TRUE, true, True. *)
Theorem main_only_log_iff env strconv_ParseFloat PromotedDeliveryClient
    (Build : PromotedDeliveryClientBuilder → error + PromotedDeliveryClient)
    (Deliver : PromotedDeliveryClient → DeliveryRequest → error + DeliveryResponse) :
  ∀ req,
    Deliver_call req ∈ trace (main env strconv_ParseFloat PromotedDeliveryClient Build Deliver) →
    (DeliveryRequest_OnlyLog req = true
     ↔ ∃ val, env !! "ONLY_LOG" = Some val
              ∧ val ∈ ["1"; "t"; "T"; "TRUE"; "true"; "True"]).
Proof.
  intros req Hin.
  destruct (main_eq env strconv_ParseFloat PromotedDeliveryClient Build Deliver)
    as (req0 & Hreq & Hmain). cbv zeta in *. rewrite Hmain in Hin. clear Hmain.
  assert (req = req0) as ->.
  { destruct (validateConfig _); [|destruct (Build _); [|destruct (Deliver _ _)]];
      cbn [trace fst config_reads print_header app] in Hin;
      repeat (apply elem_of_cons in Hin as [Hin|Hin];
              [try discriminate Hin; injection Hin as Hin; exact Hin|]);
      try (apply elem_of_nil in Hin; destruct Hin).
    apply list_elem_of_fmap in Hin as (x & Hx & _). discriminate Hx. }
  rewrite newTestRequest_eq in Hreq. injection Hreq as <-.
  cbn [DeliveryRequest_OnlyLog env_config OnlyLog].
  destruct (env !! "ONLY_LOG") as [val|]; cbn [mbind option_bind default].
  - split.
    + intros H. exists val. split; [reflexivity|]. apply ParseBool_true.
      destruct (strconv_ParseBool val) as [[|]|]; [reflexivity|discriminate H..].
    + intros (v & [= <-] & Hv%ParseBool_true). by rewrite Hv.
  - split; [discriminate|]. intros (v & Hv & _). discriminate Hv.
Qed.

(** X9 on a sample run with ONLY_LOG=true: the request that is sent asks
    for log-only delivery. *)
Lemma main_only_log_iff_sample :
  ∃ req,
    Deliver_call req
      ∈ trace (main sample_env_only_log sample_ParseFloat unit sample_Build sample_Deliver)
    ∧ DeliveryRequest_OnlyLog req = true.
Proof.
  destruct (main_eq sample_env_only_log sample_ParseFloat unit sample_Build sample_Deliver)
    as (req & Hreq & Hmain).
  assert (Deliver_call req
            ∈ trace (main sample_env_only_log sample_ParseFloat unit
                       sample_Build sample_Deliver)) as Hin.
  { rewrite Hmain. cbv zeta.
    replace (validateConfig (env_config sample_env_only_log sample_ParseFloat))
      with (@None error) by (vm_compute; reflexivity).
    unfold sample_Build, sample_Deliver. cbn [trace fst].
    apply elem_of_app. right. apply list_elem_of_further, list_elem_of_here. }
  exists req. split; [exact Hin|].
  apply (main_only_log_iff sample_env_only_log sample_ParseFloat unit
           sample_Build sample_Deliver req Hin).
  exists "true". split; [vm_compute; reflexivity|]. by repeat constructor.
Defined.

(** ** What reaches the client library *)

(** X8. [main] builds the client only with the four values it read from the
    environment, each of them set and not empty, with both timeouts at 1000
    ms, gzip accepted and the default API factory. *)
Theorem main_builds_client_from_environment env strconv_ParseFloat PromotedDeliveryClient
    (Build : PromotedDeliveryClientBuilder → error + PromotedDeliveryClient)
    (Deliver : PromotedDeliveryClient → DeliveryRequest → error + DeliveryResponse) :
  ∀ b,
    Build_call b ∈ trace (main env strconv_ParseFloat PromotedDeliveryClient Build Deliver) →
    ∃ deliveryUrl deliveryKey metricsUrl metricsKey,
      env !! "DELIVERY_API_ENDPOINT_URL" = Some deliveryUrl ∧ deliveryUrl ≠ ""
      ∧ env !! "DELIVERY_API_KEY" = Some deliveryKey ∧ deliveryKey ≠ ""
      ∧ env !! "METRICS_API_ENDPOINT_URL" = Some metricsUrl ∧ metricsUrl ≠ ""
      ∧ env !! "METRICS_API_KEY" = Some metricsKey ∧ metricsKey ≠ ""
      ∧ b = [ WithDeliveryEndpoint deliveryUrl;
              WithDeliveryAPIKey deliveryKey;
              WithDeliveryTimeoutMillis 1000;
              WithMetricsEndpoint metricsUrl;
              WithMetricsAPIKey metricsKey;
              WithMetricsTimeoutMillis 1000;
              WithAcceptsGzip true;
              WithAPIFactory DefaultAPIFactory ].
Proof.
  intros b Hin.
  destruct (main_eq env strconv_ParseFloat PromotedDeliveryClient Build Deliver)
    as (req0 & _ & Hmain). cbv zeta in *. rewrite Hmain in Hin. clear Hmain.
  destruct (validateConfig _) eqn:Hv.
  { exfalso. cbn [trace fst config_reads app] in Hin.
    repeat (apply elem_of_cons in Hin as [Hin|Hin]; [discriminate Hin|]).
    by apply elem_of_nil in Hin. }
  assert (b = client_builder (env_config env strconv_ParseFloat)) as ->.
  { destruct (Build _); [|destruct (Deliver _ _)];
      cbn [trace fst config_reads print_header app] in Hin;
      repeat (apply elem_of_cons in Hin as [Hin|Hin];
              [try discriminate Hin; injection Hin as Hin; exact Hin|]);
      try (apply elem_of_nil in Hin; destruct Hin).
    apply list_elem_of_fmap in Hin as (x & Hx & _). discriminate Hx. }
  apply validateConfig_None in Hv as (H1 & H2 & H3 & H4).
  unfold client_builder.
  cbn [env_config MetricsApiEndpointUrl MetricsApiKey DeliveryApiEndpointUrl
       DeliveryApiKey] in *.
  destruct (env !! "DELIVERY_API_ENDPOINT_URL") as [deliveryUrl|]; [|done].
  destruct (env !! "DELIVERY_API_KEY") as [deliveryKey|]; [|done].
  destruct (env !! "METRICS_API_ENDPOINT_URL") as [metricsUrl|]; [|done].
  destruct (env !! "METRICS_API_KEY") as [metricsKey|]; [|done].
  exists deliveryUrl, deliveryKey, metricsUrl, metricsKey. by repeat split.
Qed.

(** X8 on the sample run: the client is built with the sample values. *)
Lemma main_builds_client_from_environment_sample :
  ∃ b,
    Build_call b ∈ trace sample_main
    ∧ b !! 0%nat = Some (WithDeliveryEndpoint "https://delivery.example/deliver")
    ∧ b !! 3%nat = Some (WithMetricsEndpoint "https://metrics.example/log").
Proof.
  assert (Build_call (client_builder (env_config sample_env sample_ParseFloat))
            ∈ trace sample_main) as Hin.
  { unfold sample_main.
    destruct (main_eq sample_env sample_ParseFloat unit sample_Build sample_Deliver)
      as (req & _ & ->). cbv zeta.
    replace (validateConfig (env_config sample_env sample_ParseFloat))
      with (@None error) by (vm_compute; reflexivity).
    unfold sample_Build, sample_Deliver. cbn [trace fst].
    apply elem_of_app. right. apply list_elem_of_here. }
  destruct (main_builds_client_from_environment sample_env sample_ParseFloat unit
              sample_Build sample_Deliver _ Hin)
    as (d & dk & m & mk & Hd & _ & _ & _ & Hm & _ & _ & _ & Hb).
  eexists. split; [exact Hin|]. rewrite Hb. cbn.
  injection Hd as <-. injection Hm as <-. by split.
Defined.

(** X7. [main] panics only with an error that [Build] or [Deliver]
    returned: the two panics of its own, after a failed [structpb.NewValue]
    in [newTestRequestInsertions] and after a failed [newTestRequest], are
    never reached, and their messages are never printed. *)
Theorem main_panics_only_from_library env strconv_ParseFloat PromotedDeliveryClient
    (Build : PromotedDeliveryClientBuilder → error + PromotedDeliveryClient)
    (Deliver : PromotedDeliveryClient → DeliveryRequest → error + DeliveryResponse) :
  let run := main env strconv_ParseFloat PromotedDeliveryClient Build Deliver in
  (∀ err, result run = inl (panic_halt err) →
     (∃ b, Build_call b ∈ trace run ∧ Build b = inl err)
     ∨ (∃ b client req,
          Build_call b ∈ trace run ∧ Build b = inr client
          ∧ Deliver_call req ∈ trace run ∧ Deliver client req = inl err))
  ∧ (Println_call [a_string "newTestRequest failed"] ∉ trace run)
  ∧ (Println_call [a_string "insertion structpb.NewValue failed"] ∉ trace run).
Proof.
  cbv zeta.
  destruct (main_eq env strconv_ParseFloat PromotedDeliveryClient Build Deliver)
    as (req0 & _ & ->). cbv zeta.
  destruct (validateConfig _) as [err0|];
    [|destruct (Build _) as [err0|client0] eqn:HB;
      [|destruct (Deliver _ _) as [err0|response0] eqn:HD]];
    cbn [trace result fst snd config_reads print_header app].
  all: (split;
    [|split; intros Hin;
      repeat (apply elem_of_cons in Hin as [Hin|Hin]; [discriminate Hin|]);
      try (by apply elem_of_nil in Hin);
      apply list_elem_of_fmap in Hin as (x & Hx & _); discriminate Hx]).
  all: intros err Hr; try discriminate Hr; injection Hr as <-.
  - left. eexists. split; [|exact HB]. do 7 apply list_elem_of_further.
    apply list_elem_of_here.
  - right. eexists _, client0, req0. split; [|split; [exact HB|split; [|exact HD]]].
    + do 7 apply list_elem_of_further. apply list_elem_of_here.
    + do 8 apply list_elem_of_further. apply list_elem_of_here.
Qed.

(** ** Re-ranking the catalog *)

Lemma echo_main_delivers :
  main_delivers sample_env sample_ParseFloat unit sample_Build echo_Deliver echo_response.
Proof.
  exists (env_config sample_env sample_ParseFloat), tt.
  eexists _, _. rewrite main_config_eq, newTestRequestInsertions_map.
  split; [reflexivity|]. split; [by vm_compute|]. split; [reflexivity|].
  split; [reflexivity|]. split; [apply newTestRequest_eq|].
  vm_compute. reflexivity.
Qed.

(** X4. When every [ContentId] of the response is the [ID] of a catalog
    product, [main] prints catalog products only, one per insertion and
    with the insertion's [ContentId] as [ID]; when the response's
    [ContentId]s are the catalog's [ID]s in some order, what is printed is
    the catalog in that order. *)
Theorem main_reranks_catalog env strconv_ParseFloat PromotedDeliveryClient
    (Build : PromotedDeliveryClientBuilder → error + PromotedDeliveryClient)
    (Deliver : PromotedDeliveryClient → DeliveryRequest → error + DeliveryResponse)
    response :
  main_delivers env strconv_ParseFloat PromotedDeliveryClient Build Deliver response →
  (∀ insertion, insertion ∈ Response_Insertion (Response_ response) →
     ContentId insertion ∈ ID <$> getProducts) →
  let run := main env strconv_ParseFloat PromotedDeliveryClient Build Deliver in
  let insertions := Response_Insertion (Response_ response) in
  ∃ before reranked,
    trace run
    = (before ++ ((λ product, Printf_call ("%v" ++ LF) [a_Product product]) <$> reranked))%list
    ∧ (∀ c, c ∈ before → printed_ContentId c = None)
    ∧ ID <$> reranked = ContentId <$> insertions
    ∧ (∀ product, product ∈ reranked → product ∈ getProducts)
    ∧ (ContentId <$> insertions ≡ₚ ID <$> getProducts → reranked ≡ₚ getProducts).
Proof.
  intros Hrun Hids. apply main_delivers_run in Hrun as (b & req & ->). cbv zeta.
  assert (∀ insertion, insertion ∈ Response_Insertion (Response_ response) →
            ∃ product, main_productsMap getProducts !! ContentId insertion = Some product)
    as Hfound.
  { intros insertion (product & -> & Hp)%Hids%list_elem_of_fmap.
    by apply main_productsMap_is_Some. }
  pose (f := λ k : string,
          default {| ID := ""; Name := ""; Price := 0 |} (main_productsMap getProducts !! k)).
  exists (config_reads ++ [Build_call b; Deliver_call req] ++ print_header response)%list,
    ((λ insertion, f (ContentId insertion)) <$> Response_Insertion (Response_ response)).
  split; [|split; [|split; [|split]]].
  - cbn [trace fst]. rewrite <- !app_assoc. do 3 f_equal.
    rewrite <- list_fmap_compose. apply list_fmap_ext. intros i insertion Hi.
    destruct (Hfound insertion) as [product Hp]; [by eapply list_elem_of_lookup_2|].
    unfold print_insertion, f, compose. by rewrite Hp.
  - intros c Hin. rewrite !elem_of_app in Hin.
    destruct Hin as [Hin|[Hin|Hin]].
    + apply (print_header_not_line response). rewrite elem_of_app. by left.
    + repeat (apply elem_of_cons in Hin as [->|Hin]; [reflexivity|]).
      by apply elem_of_nil in Hin.
    + apply (print_header_not_line response). rewrite elem_of_app. by right.
  - rewrite <- list_fmap_compose. apply list_fmap_ext. intros i insertion Hi.
    destruct (Hfound insertion) as [product Hp]; [by eapply list_elem_of_lookup_2|].
    unfold f, compose. rewrite Hp. cbn. by eapply main_productsMap_ID.
  - intros product (insertion & -> & Hin)%list_elem_of_fmap.
    destruct (Hfound insertion Hin) as [product Hp].
    unfold f. rewrite Hp. cbn. by eapply main_productsMap_elem_of.
  - intros Hperm.
    rewrite (list_fmap_compose ContentId f), Hperm. subst f. by vm_compute.
Qed.

(** X4 on a sample run whose response lists the request's insertions in
    reverse: product 2 is printed, then product 1. *)
Lemma main_reranks_catalog_sample :
  ∃ before,
    trace (main sample_env sample_ParseFloat unit sample_Build echo_Deliver)
    = (before ++ [
        Printf_call ("%v" ++ LF) [a_Product {| ID := "2"; Name := "Product 2"; Price := 200 |}];
        Printf_call ("%v" ++ LF) [a_Product {| ID := "1"; Name := "Product 1"; Price := 100 |}]
      ])%list.
Proof.
  destruct (main_reranks_catalog sample_env sample_ParseFloat unit sample_Build
              echo_Deliver echo_response echo_main_delivers)
    as (before & reranked & Htrace & _ & Hids & Hin & _).
  { intros insertion Hi. unfold echo_response in Hi.
    cbn [Response_Insertion Response_] in Hi.
    apply elem_of_cons in Hi as [->|Hi];
      [apply list_elem_of_further, list_elem_of_here|].
    apply elem_of_cons in Hi as [->|Hi]; [apply list_elem_of_here|].
    apply elem_of_nil in Hi. destruct Hi. }
  exists before. rewrite Htrace. f_equal.
  destruct reranked as [|x [|y [|]]]; try discriminate Hids.
  injection Hids as Hx Hy.
  assert (x = {| ID := "2"; Name := "Product 2"; Price := 200 |}) as ->.
  { pose proof (Hin x (list_elem_of_here _ _)) as Hx'. unfold getProducts in Hx'.
    apply elem_of_cons in Hx' as [->|Hx']; [cbn [ID] in Hx; discriminate Hx|].
    apply elem_of_cons in Hx' as [->|Hx']; [reflexivity|].
    apply elem_of_nil in Hx'. destruct Hx'. }
  assert (y = {| ID := "1"; Name := "Product 1"; Price := 100 |}) as ->.
  { pose proof (Hin y (list_elem_of_further _ _ _ (list_elem_of_here _ _))) as Hy'.
    unfold getProducts in Hy'.
    apply elem_of_cons in Hy' as [->|Hy']; [reflexivity|].
    apply elem_of_cons in Hy' as [->|Hy']; [cbn [ID] in Hy; discriminate Hy|].
    apply elem_of_nil in Hy'. destruct Hy'. }
  reflexivity.
Defined.

(** ** Part 000 *)

Lemma mbind000_inr {A B} (t : list Part000.Call000) (a : A) (k : A → Part000.M000 B) :
  ((t, inr a) : Part000.M000 A) ≫= k = ((t ++ fst (k a))%list, snd (k a)).
Proof. unfold mbind, Part000.M000_bind. by destruct (k a). Qed.

Lemma mbind000_mret {A B} (a : A) (k : A → Part000.M000 B) : (mret a ≫= k) = k a.
Proof. unfold mret, Part000.M000_ret. rewrite mbind000_inr. by destruct (k a). Qed.

Lemma mbind000_call {B} (c : Part000.Call000) (k : unit → Part000.M000 B) :
  (Part000.call000 c ≫= k) = (c :: fst (k ()), snd (k ())).
Proof. unfold Part000.call000. by rewrite mbind000_inr. Qed.

Lemma lift_inr {A} (t : list Call) (a : A) :
  Part000.lift ((t, inr a) : M A) = (Part000.main_go_call <$> t, inr a).
Proof. reflexivity. Qed.

Lemma lift_call (c : Call) : Part000.lift (call c) = Part000.call000 (Part000.main_go_call c).
Proof. reflexivity. Qed.

Lemma for_range000_calls {A} (l : list A) (f : A → Part000.Call000) :
  Part000.for_range000 l (λ x, Part000.call000 (f x)) = (f <$> l, inr ()).
Proof.
  induction l as [|x l IH]; [done|].
  cbn [Part000.for_range000]. by rewrite mbind000_call, IH.
Qed.

Lemma for_range000_ext {A} (l : list A) (f g : A → Part000.M000 unit) :
  (∀ x, f x = g x) → Part000.for_range000 l f = Part000.for_range000 l g.
Proof.
  intros Hfg. induction l as [|x l IH]; [done|].
  cbn [Part000.for_range000]. by rewrite Hfg, IH.
Qed.

Lemma Part000_main_eq env strconv_ParseFloat PromotedDeliveryClient
    (Build : PromotedDeliveryClientBuilder → error + PromotedDeliveryClient)
    (Deliver : PromotedDeliveryClient → DeliveryRequest → error + DeliveryResponse) :
  let config := env_config env strconv_ParseFloat in
  let front := ((Part000.main_go_call <$> config_reads) ++ Part000.print_banner config)%list in
  ∃ req,
    newTestRequest (Part000.bare_insertion <$> (product_insertion <$> getProducts))
      (OnlyLog config) = inr req ∧
    Part000.main env strconv_ParseFloat PromotedDeliveryClient Build Deliver =
    match validateConfig config with
    | Some err =>
      ((front ++ [Part000.main_go_call
                    (Fprintf_Stderr_call ("Error: %v" ++ LF) [a_error err])])%list,
       inl (os_Exit_halt 1))
    | None =>
      match Build (client_builder config) with
      | inl err =>
        ((front ++ [
            Part000.main_go_call (Build_call (client_builder config));
            Part000.main_go_call
              (Println_call [a_string "Error initializing PromotedDeliveryClient"]) ])%list,
         inl (panic_halt err))
      | inr client =>
        match Deliver client req with
        | inl err =>
          ((front ++ [
              Part000.main_go_call (Build_call (client_builder config));
              Part000.main_go_call (Deliver_call req);
              Part000.main_go_call (Println_call [a_string "Delivery called failed"]) ])%list,
           inl (panic_halt err))
        | inr response =>
          ((front ++ [Part000.main_go_call (Build_call (client_builder config));
                      Part000.main_go_call (Deliver_call req)]
              ++ (Part000.main_go_call <$> print_header response)
              ++ (Part000.print_insertion000 (main_productsMap getProducts)
                    <$> Response_Insertion (Response_ response)))%list,
           inr ())
        end
      end
    end.
Proof.
  cbv zeta. eexists. split; [apply newTestRequest_eq|].
  unfold Part000.main. rewrite main_config_eq, lift_inr, mbind000_inr.
  unfold Part000.fmt_Print. rewrite !mbind000_call.
  destruct (validateConfig _) as [err|].
  { reflexivity. }
  rewrite mbind000_mret, NewPromotedDeliveryClient_eq, lift_inr, mbind000_inr.
  destruct (Build _) as [err|client].
  { reflexivity. }
  rewrite mbind000_mret.
  unfold Part000.main_insertions. rewrite Part000_main_insertions_from.
  cbn [app]. rewrite newTestRequest_eq, mbind000_mret, client_Deliver_eq.
  rewrite lift_inr, mbind000_inr.
  destruct (Deliver _ _) as [err|response].
  { reflexivity. }
  rewrite mbind000_mret. unfold fmt_Printf. rewrite !lift_call, !mbind000_call.
  rewrite (for_range000_ext _ _
    (λ x, Part000.call000 (Part000.print_insertion000 (main_productsMap getProducts) x))).
  - rewrite for_range000_calls. reflexivity.
  - intros insertion. unfold Part000.print_insertion000.
    fold (main_productsMap getProducts).
    by destruct (main_productsMap getProducts !! ContentId insertion).
Qed.

Lemma without_Print_print_insertion000 (productsMap : gmap string Product)
    (insertions : list Insertion) :
  Part000.without_Print (Part000.print_insertion000 productsMap <$> insertions)
  = Part000.print_insertion000 productsMap <$> insertions.
Proof.
  induction insertions as [|insertion insertions IH]; [reflexivity|].
  unfold Part000.without_Print in *. cbn [fmap list_fmap List.filter].
  fold (Part000.print_insertion000 productsMap <$> insertions). rewrite IH.
  unfold Part000.print_insertion000 at 1.
  by destruct (productsMap !! ContentId insertion).
Qed.

Lemma as_part_000_print_insertion (productsMap : gmap string Product)
    (insertions : list Insertion) :
  Part000.as_part_000 <$> (print_insertion productsMap <$> insertions)
  = Part000.print_insertion000 productsMap <$> insertions.
Proof.
  rewrite <- list_fmap_compose. apply list_fmap_ext. intros i insertion _.
  unfold compose, print_insertion, Part000.print_insertion000.
  by destruct (productsMap !! ContentId insertion).
Qed.

(** X12. In every run of part 000, also one that then refuses the
    configuration, the seven reads of the configuration are followed at once
    by three prints: the banner, the value read for METRICS_API_ENDPOINT_URL
    (empty when it is not set) and a line feed; nothing else is ever printed
    with [fmt.Print]. *)
Theorem part_000_prints_banner_first env strconv_ParseFloat PromotedDeliveryClient
    (Build : PromotedDeliveryClientBuilder → error + PromotedDeliveryClient)
    (Deliver : PromotedDeliveryClient → DeliveryRequest → error + DeliveryResponse) :
  ∃ rest,
    (Part000.main env strconv_ParseFloat PromotedDeliveryClient Build Deliver).1
    = ((Part000.main_go_call <$> config_reads)
       ++ [ Part000.Print_call [a_string ("Promoted Delivery Client" ++ LF)];
            Part000.Print_call [a_string (default "" (env !! "METRICS_API_ENDPOINT_URL"))];
            Part000.Print_call [a_string LF] ]
       ++ rest)%list
    ∧ ∀ a, Part000.Print_call a ∉ rest.
Proof.
  destruct (Part000_main_eq env strconv_ParseFloat PromotedDeliveryClient Build Deliver)
    as (req & _ & ->). cbv zeta.
  destruct (validateConfig _); [|destruct (Build _); [|destruct (Deliver _ _)]];
    cbn [fst]; rewrite <- app_assoc; (eexists; split; [reflexivity|]);
    intros a Hin; cbn [app print_header fmap list_fmap] in Hin;
    repeat (apply elem_of_cons in Hin as [Hin|Hin]; [discriminate Hin|]);
    try (apply elem_of_nil in Hin; destruct Hin).
  apply list_elem_of_fmap in Hin as (insertion & Hx & _).
  unfold Part000.print_insertion000 in Hx.
  destruct (main_productsMap getProducts !! ContentId insertion); discriminate Hx.
Qed.

(** X13. When [Deliver] answers a request as it answers the same request
    with bare insertions, part 000 runs as [main.go] does: both end the same
    way, and the calls of part 000 other than its three prints are the calls
    of [main.go], with the request sent bare and the products printed as
    values. *)
Theorem part_000_agrees_with_main_go env strconv_ParseFloat PromotedDeliveryClient
    (Build : PromotedDeliveryClientBuilder → error + PromotedDeliveryClient)
    (Deliver : PromotedDeliveryClient → DeliveryRequest → error + DeliveryResponse) :
  (∀ client req, Deliver client (Part000.bare_request req) = Deliver client req) →
  (Part000.main env strconv_ParseFloat PromotedDeliveryClient Build Deliver).2
  = result (main env strconv_ParseFloat PromotedDeliveryClient Build Deliver)
  ∧ Part000.without_Print
      (Part000.main env strconv_ParseFloat PromotedDeliveryClient Build Deliver).1
    = Part000.as_part_000
        <$> trace (main env strconv_ParseFloat PromotedDeliveryClient Build Deliver).
Proof.
  intros Hbare.
  destruct (Part000_main_eq env strconv_ParseFloat PromotedDeliveryClient Build Deliver)
    as (req000 & Hreq000 & ->).
  destruct (main_eq env strconv_ParseFloat PromotedDeliveryClient Build Deliver)
    as (req & Hreq & ->).
  cbv zeta in *.
  assert (req000 = Part000.bare_request req) as ->.
  { rewrite newTestRequest_eq in Hreq000, Hreq.
    injection Hreq000 as <-. injection Hreq as <-. reflexivity. }
  destruct (validateConfig _); [|destruct (Build _) as [|client];
    [|rewrite (Hbare client req); destruct (Deliver client req)]];
    (split; [reflexivity|]); try reflexivity.
  cbn [fst trace]. unfold Part000.without_Print.
  rewrite !app_assoc, List.filter_app, fmap_app.
  rewrite as_part_000_print_insertion.
  f_equal; first [apply without_Print_print_insertion000 | reflexivity].
Qed.

(** X13 on the sample run, whose [Deliver] answers every request alike. *)
Lemma part_000_agrees_with_main_go_sample :
  (Part000.main sample_env sample_ParseFloat unit sample_Build sample_Deliver).2
  = result sample_main
  ∧ Part000.without_Print
      (Part000.main sample_env sample_ParseFloat unit sample_Build sample_Deliver).1
    = Part000.as_part_000 <$> trace sample_main.
Proof.
  apply (part_000_agrees_with_main_go sample_env sample_ParseFloat unit
           sample_Build sample_Deliver).
  intros client req. reflexivity.
Defined.
